(** * VegMapper, [data-prep/ALOS-2/alos2_proc.py]

    A shallow embedding of the ALOS/ALOS-2 mosaic preparation script and the
    properties of its archive filtering, member-path templating, location
    checks and command trace.

    Conventions of the embedding.
    - Python [str] values are [string]s; the model is exact on ASCII text.
    - The year is a Python [int], hence a [Z].
    - [src] in [build_vrt] is either a [pathlib.Path] or a [str]; the two
      cases the script distinguishes with [isinstance] are the constructors
      of [source].
    - Shell commands, [Path.is_dir] and [gpd.read_file] are effects: they are
      recorded in a trace and their outcome is read from a [World] whose
      answers may depend on everything executed so far.
    - The model starts after [parser.parse_args()]: [main] takes the parsed
      arguments. *)

From Stdlib Require Import ZArith List Bool Ascii String Lia.
From Stdlib Require Import Numbers.DecimalString.
Import ListNotations.

#[local] Open Scope list_scope.
#[local] Open Scope string_scope.

(** * Part I: the script *)

(** ** Python string primitives used by the script *)

Module PyStr.

(** [str(n)] for an [int]. *)
Definition str_of_int (n : Z) : string :=
  NilZero.string_of_int (Z.to_int n).

(** [s[k:]] for [0 <= k]. *)
Fixpoint drop (k : nat) (s : string) : string :=
  match k, s with
  | O, _ => s
  | S _, EmptyString => EmptyString
  | S k', String _ s' => drop k' s'
  end.

(** [sep.join(l)]. *)
Fixpoint join (sep : string) (l : list string) : string :=
  match l with
  | [] => ""
  | [x] => x
  | x :: rest => x ++ sep ++ join sep rest
  end.

(** [s.split(c)] for a one-character separator: never empty. *)
Fixpoint split (c : ascii) (s : string) : list string :=
  match s with
  | EmptyString => [""]
  | String a s' =>
      if Ascii.eqb a c then "" :: split c s'
      else match split c s' with
           | [] => [String a ""]
           | w :: ws => String a w :: ws
           end
  end.

(** [s.split(c)[0]]. *)
Definition split_head (c : ascii) (s : string) : string :=
  hd "" (split c s).

Fixpoint lstrip (c : ascii) (s : string) : string :=
  match s with
  | String a s' => if Ascii.eqb a c then lstrip c s' else s
  | EmptyString => EmptyString
  end.

Fixpoint rev_string (acc s : string) : string :=
  match s with
  | EmptyString => acc
  | String a s' => rev_string (String a acc) s'
  end.

Definition rstrip (c : ascii) (s : string) : string :=
  rev_string "" (lstrip c (rev_string "" s)).

(** [s.strip(c)] for a one-character set. *)
Definition strip (c : ascii) (s : string) : string :=
  rstrip c (lstrip c s).

(** [s.startswith(p)]. *)
Fixpoint startswith (p s : string) : bool :=
  match p, s with
  | EmptyString, _ => true
  | String _ _, EmptyString => false
  | String a p', String b s' => Ascii.eqb a b && startswith p' s'
  end.

(** [s.endswith(p)]. *)
Definition endswith (p s : string) : bool :=
  startswith (rev_string "" p) (rev_string "" s).

(** [all(ok(c) for c in s)]. *)
Fixpoint all_chars (ok : ascii -> bool) (s : string) : bool :=
  match s with
  | EmptyString => true
  | String c s' => ok c && all_chars ok s'
  end.

End PyStr.

(** ** [pathlib] on a POSIX host

    A [Path] is held as the string [str(path)].  Parsing drops empty and
    ["."] components and keeps one leading slash (two when the text starts
    with exactly two). *)

Module PyPath.

Definition is_component (c : string) : bool :=
  negb (String.eqb c "" || String.eqb c ".").

Definition components (p : string) : list string :=
  filter is_component (PyStr.split "/" p).

Definition root (p : string) : string :=
  let stripped := PyStr.lstrip "/" p in
  match String.length p - String.length stripped with
  | 0 => ""
  | 2 => "//"
  | _ => "/"
  end.

(** [str(Path(a) / b)] for a relative [b]. *)
Definition joinpath (a b : string) : string :=
  let parts := (components a ++ components b)%list in
  match root a, parts with
  | "", [] => "."
  | r, _ => r ++ PyStr.join "/" parts
  end.

(** [Path(p).name]: the final component, [''] when there is none. *)
Definition name (p : string) : string :=
  last (components p) "".

End PyPath.

(** ** The archive name pattern (line 34)

    [re.compile(r'^[N|S]{1}\w{2}[E|W]{1}\w{3}_\w{2}_MOS')], used with
    [match]: a sequence of fourteen one-character tests on the start of the
    name.  Inside brackets the bar is an ordinary character, so the two
    hemisphere classes contain it. *)

Module Pattern.

Definition in_range (lo hi c : ascii) : bool :=
  (nat_of_ascii lo <=? nat_of_ascii c)%nat
  && (nat_of_ascii c <=? nat_of_ascii hi)%nat.

Definition is_digit (c : ascii) : bool := in_range "0" "9" c.

(** [\w] on ASCII text: letters, digits and the underscore. *)
Definition is_word (c : ascii) : bool :=
  in_range "a" "z" c || in_range "A" "Z" c || is_digit c || Ascii.eqb c "_".

(** A bracketed class: membership in the listed characters. *)
Fixpoint in_class (members : string) (c : ascii) : bool :=
  match members with
  | EmptyString => false
  | String m rest => Ascii.eqb c m || in_class rest c
  end.

Definition lit (x : ascii) : ascii -> bool := fun c => Ascii.eqb c x.

(** Anchored match of a sequence of one-character tests. *)
Fixpoint match_prefix (pat : list (ascii -> bool)) (s : string) : bool :=
  match pat, s with
  | [], _ => true
  | _ :: _, EmptyString => false
  | p :: pat', String c s' => p c && match_prefix pat' s'
  end.

Definition tarfile_pattern : list (ascii -> bool) :=
  [ in_class "N|S"; is_word; is_word;
    in_class "E|W"; is_word; is_word; is_word;
    lit "_"; is_word; is_word;
    lit "_"; lit "M"; lit "O"; lit "S" ].

(** [tarfile_pattern.match(name)] as a truth value. *)
Definition tarfile_pattern_match (name : string) : bool :=
  match_prefix tarfile_pattern name.

(** The pattern in the words of the specification: a hemisphere letter,
    two digits, a hemisphere letter, three digits, an underscore, two
    digits, an underscore and [MOS]. *)
Definition spec_pattern : list (ascii -> bool) :=
  [ in_class "NS"; is_digit; is_digit;
    in_class "EW"; is_digit; is_digit; is_digit;
    lit "_"; is_digit; is_digit;
    lit "_"; lit "M"; lit "O"; lit "S" ].

Definition spec_pattern_match (name : string) : bool :=
  match_prefix spec_pattern name.

(** The same form with word characters where the specification says
    digits. *)
Definition word_pattern : list (ascii -> bool) :=
  [ in_class "NS"; is_word; is_word;
    in_class "EW"; is_word; is_word; is_word;
    lit "_"; is_word; is_word;
    lit "_"; lit "M"; lit "O"; lit "S" ].

Definition word_pattern_match (name : string) : bool :=
  match_prefix word_pattern name.

End Pattern.

(** ** The filtering loop (lines 41-43)

    [for tarfile in tarfile_list: if not match: tarfile_list.remove(tarfile)].
    The list iterator keeps an index into the list being mutated: each round
    reads position [i] of the current list and moves to [i + 1], and
    [list.remove] deletes the first element equal to its argument. *)

Module Filter.

Fixpoint remove_first (x : string) (l : list string) : list string :=
  match l with
  | [] => []
  | y :: rest => if String.eqb x y then rest else y :: remove_first x rest
  end.

(** [rounds] bounds the number of iterations; the loop stops by itself
    when the index leaves the list. *)
Fixpoint remove_loop (keep : string -> bool) (rounds i : nat)
         (l : list string) : list string :=
  match rounds with
  | O => l
  | S rounds' =>
      match nth_error l i with
      | None => l
      | Some tarfile =>
          if keep tarfile
          then remove_loop keep rounds' (S i) l
          else remove_loop keep rounds' (S i) (remove_first tarfile l)
      end
  end.

(** The list never grows, so [length l] rounds always suffice
    ([FilterFacts.filter_tarfiles_total]). *)
Definition filter_tarfiles (l : list string) : list string :=
  remove_loop Pattern.tarfile_pattern_match (List.length l) 0 l.

End Filter.

(** ** Effects: traces, worlds and the script monad *)

Inductive event : Type :=
| IsDir (path : string)          (* [path.is_dir()] *)
| CheckCall (cmd : string)       (* [subprocess.check_call(cmd, shell=True)] *)
| CheckOutput (cmd : string)     (* [subprocess.check_output(cmd, shell=True)] *)
| ReadFile (path : string).      (* [gpd.read_file(path)] *)

Definition trace := list event.

(** What the host answers.  Every answer may depend on the history, so a
    command can change what later commands and checks see.
    [output_lines] is the decoded standard output split into lines, [None]
    when the command exits with a non-zero status. *)
Record World : Type := {
  is_dir_at : trace -> string -> bool;
  call_succeeds : trace -> string -> bool;
  output_lines : trace -> string -> option (list string);
  readable : trace -> string -> bool
}.

Inductive error : Type :=
| Exception (msg : string)
| CalledProcessError (cmd : string)
| DriverError (path : string).

Inductive result (A : Type) : Type :=
| Ok (a : A)
| Raise (e : error).
Arguments Ok {A} a.
Arguments Raise {A} e.

Definition M (A : Type) : Type := trace -> trace * result A.

Definition ret {A} (a : A) : M A := fun t => (t, Ok a).

Definition raise {A} (e : error) : M A := fun t => (t, Raise e).

Definition bind {A B} (m : M A) (k : A -> M B) : M B :=
  fun t =>
    match m t with
    | (t', Ok a) => k a t'
    | (t', Raise e) => (t', Raise e)
    end.

Notation "x <- m ;; k" := (bind m (fun x => k))
  (at level 61, m at next level, right associativity).
Notation "m ;; k" := (bind m (fun _ => k))
  (at level 61, right associativity).

(** A Python [for] over a list that the body does not mutate. *)
Fixpoint for_each {A} (l : list A) (body : A -> M unit) : M unit :=
  match l with
  | [] => ret tt
  | x :: rest => body x ;; for_each rest body
  end.

(** ** Data of the script *)

(** [urlparse(...)]: the three fields the script reads. *)
Record ParseResult : Type := {
  scheme : string;
  netloc : string;
  path : string
}.

(** The two kinds of value [main] passes as [src]: a [Path] (held as its
    text) or a [str] holding an object-store URL. *)
Inductive source : Type :=
| PathSrc (p : string)
| StrSrc (s : string).

(** [f'{src}']. *)
Definition source_text (src : source) : string :=
  match src with
  | PathSrc p => p
  | StrSrc s => s
  end.

Inductive layer : Type := HH | HV | INC | DOY.

Definition layer_name (l : layer) : string :=
  match l with
  | HH => "HH"
  | HV => "HV"
  | INC => "INC"
  | DOY => "DOY"
  end.

(** The dictionary of lines 15-20. *)
Definition layer_suffix (l : layer) : string :=
  match l with
  | HH => "sl_HH"
  | HV => "sl_HV"
  | INC => "linci"
  | DOY => "date"
  end.

(** The list of line 52. *)
Definition layers : list layer := [HH; HV; INC; DOY].

(** [argparse]'s namespace after [parse_args()]. *)
Record Args : Type := {
  tiles : string;
  year : Z;
  src : string;
  dst : string
}.

(** ** The script *)

Section Script.

(** [urllib.parse.urlparse] is taken as given: nothing proved below
    depends on how it splits a URL.  Its [ValueError] on a malformed
    bracketed host is not modelled. *)
Variable urlparse : string -> ParseResult.
Variable w : World.

Definition check_call (cmd : string) : M unit :=
  fun t =>
    ((t ++ [CheckCall cmd])%list,
     if call_succeeds w t cmd then Ok tt else Raise (CalledProcessError cmd)).

Definition check_output (cmd : string) : M (list string) :=
  fun t =>
    ((t ++ [CheckOutput cmd])%list,
     match output_lines w t cmd with
     | Some lines => Ok lines
     | None => Raise (CalledProcessError cmd)
     end).

Definition is_dir (p : string) : M bool :=
  fun t => ((t ++ [IsDir p])%list, Ok (is_dir_at w t p)).

Definition read_file (p : string) : M unit :=
  fun t =>
    ((t ++ [ReadFile p])%list,
     if readable w t p then Ok tt else Raise (DriverError p)).

(** *** [build_vrt] (lines 23-73) *)

(** [str(year)[2:]]. *)
Definition yy (year : Z) : string := PyStr.drop 2 (PyStr.str_of_int year).

(** Lines 25-32. *)
Definition postfix (year : Z) : string :=
  if (year <? 2014)%Z then "" else "F02DAR".

Definition launch_date (year : Z) : Z * Z * Z :=
  if (year <? 2014)%Z then (2006, 1, 24)%Z else (2014, 5, 24)%Z.

(** Lines 47-50. *)
Definition suffix (year : Z) : string :=
  if (year <? 2019)%Z then "" else ".tif".

(** Lines 37-39. *)
Definition ls_cmd (src : source) : string :=
  let ls_cmd := "ls " ++ source_text src ++ "/*.tar.gz" in
  match src with
  | StrSrc _ => "gsutil " ++ ls_cmd
  | PathSrc _ => ls_cmd
  end.

(** Lines 56-63: the member path of one archive for one layer. *)
Definition tif (year : Z) (src : source) (lyr : layer) (tarfile : string)
  : string :=
  let tile := PyStr.split_head "_" tarfile in
  match src with
  | PathSrc p =>
      "/vsitar/" ++ p ++ "/" ++ tarfile ++ "/" ++ tile ++ "_" ++ yy year
        ++ "_" ++ layer_suffix lyr ++ "_" ++ postfix year ++ suffix year
  | StrSrc s =>
      let u := urlparse s in
      let bucket := netloc u in
      let prefix := PyStr.strip "/" (path u) in
      "/vsitar/vsis3/" ++ bucket ++ "/" ++ prefix ++ "/" ++ tarfile ++ "/"
        ++ tile ++ "_" ++ yy year ++ "_" ++ layer_suffix lyr ++ "_"
        ++ postfix year ++ suffix year
  end.

(** Lines 54-64. *)
Definition tif_list (year : Z) (src : source) (lyr : layer)
           (tarfile_list : list string) : list string :=
  map (tif year src lyr) tarfile_list.

Definition vrt_0 (lyr : layer) : string := layer_name lyr ++ "_0.vrt".
Definition vrt_1 (lyr : layer) : string := layer_name lyr ++ "_1.vrt".

(** Line 65. *)
Definition buildvrt_cmd (lyr : layer) (tifs : list string) : string :=
  "gdalbuildvrt -overwrite " ++ vrt_0 lyr ++ " " ++ PyStr.join " " tifs.

(** Lines 70-73: the text assigned to [cmd] after the mosaic is built. *)
Definition translate_cmd (lyr : layer) : string :=
  match lyr with
  | HH | HV | INC =>
      "gdal_translate -ot Float32 " ++ vrt_0 lyr ++ " " ++ vrt_1 lyr
  | DOY =>
      "gdal_translate -ot Int16 " ++ vrt_0 lyr ++ " " ++ vrt_1 lyr
  end.

(** Lines 52-73, one round of the loop over the layers.  The last
    assignment to [cmd] is the end of the body: the text is built and
    nothing is done with it. *)
Definition build_layer (year : Z) (src : source)
           (tarfile_list : list string) (lyr : layer) : M unit :=
  let cmd := buildvrt_cmd lyr (tif_list year src lyr tarfile_list) in
  check_call cmd ;;
  let cmd := translate_cmd lyr in
  ret tt.

Definition no_tarfiles_msg (year : Z) (src : source) : string :=
  "No .tar.gz files found under " ++ source_text src ++ "/"
    ++ PyStr.str_of_int year ++ "/tarfiles/.".

Definition build_vrt (year : Z) (src : source) : M unit :=
  lines <- check_output (ls_cmd src) ;;
  let tarfile_list := map PyPath.name lines in
  let tarfile_list := Filter.filter_tarfiles tarfile_list in
  match tarfile_list with
  | [] => raise (Exception (no_tarfiles_msg year src))
  | _ :: _ => for_each layers (build_layer year src tarfile_list)
  end.

(** *** [warp_to_tiles] (lines 76-78): everything after the read is
    commented out. *)
Definition warp_to_tiles (utm_tiles : string) : M unit :=
  read_file utm_tiles.

(** *** [main] (lines 129-181) *)

Definition is_object_store (sch : string) : bool :=
  String.eqb sch "s3" || String.eqb sch "gs".

(** Lines 149-163. *)
Definition check_src (args : Args) : M source :=
  let args_src := src args in
  let u := urlparse args_src in
  if is_object_store (scheme u) then
    let srcloc := scheme u in
    let bucket := netloc u in
    let prefix := PyStr.strip "/" (path u) in
    let src := srcloc ++ "://" ++ bucket ++ "/" ++ prefix ++ "/"
                 ++ PyStr.str_of_int (year args) ++ "/tarfiles" in
    check_call ("gsutil ls " ++ src) ;;
    ret (StrSrc src)
  else
    let src := PyPath.joinpath args_src
                 (PyStr.str_of_int (year args) ++ "/tarfiles") in
    d <- is_dir src ;;
    if d then ret (PathSrc src)
    else raise (Exception (args_src ++ " is not a valid directory path")).

(** Lines 165-179. *)
Definition check_dst (args : Args) : M source :=
  let args_dst := dst args in
  let u := urlparse args_dst in
  if is_object_store (scheme u) then
    let dstloc := scheme u in
    let bucket := netloc u in
    let prefix := PyStr.strip "/" (path u) in
    let dst := dstloc ++ "://" ++ bucket ++ "/" ++ prefix ++ "/"
                 ++ PyStr.str_of_int (year args) in
    check_call ("gsutil ls " ++ dst) ;;
    ret (StrSrc dst)
  else
    let dst := PyPath.joinpath args_dst (PyStr.str_of_int (year args)) in
    d <- is_dir dst ;;
    if d then ret (PathSrc dst)
    else raise (Exception (args_dst ++ " is not a valid directory path")).

(** Line 181 after the two checks; [dst] is computed and not used. *)
Definition main (args : Args) : M unit :=
  src <- check_src args ;;
  dst <- check_dst args ;;
  build_vrt (year args) src.

End Script.

(** ** A model of [urlparse] for the worked examples

    [urllib.parse.urlsplit] of CPython 3.9 and later, restricted to the
    fields [scheme], [netloc] and [path] and to ASCII text without control
    characters or bracketed hosts; the [params] split of [urlparse], which
    never applies to the [s3] and [gs] schemes, is left out.  Only closed
    examples use it. *)

Module UrlModel.

(** Longest prefix free of [stop] characters, and what follows it. *)
Fixpoint break_at (stop : ascii -> bool) (s : string) : string * string :=
  match s with
  | EmptyString => ("", "")
  | String c s' =>
      if stop c then ("", s)
      else let '(a, b) := break_at stop s' in (String c a, b)
  end.

Definition is_alpha (c : ascii) : bool :=
  Pattern.in_range "a" "z" c || Pattern.in_range "A" "Z" c.

Definition is_scheme_char (c : ascii) : bool :=
  is_alpha c || Pattern.is_digit c || Pattern.in_class "+-." c.

Definition lower_char (c : ascii) : ascii :=
  if Pattern.in_range "A" "Z" c then ascii_of_nat (nat_of_ascii c + 32) else c.

Fixpoint lower (s : string) : string :=
  match s with
  | EmptyString => EmptyString
  | String c s' => String (lower_char c) (lower s')
  end.

Definition urlparse (url : string) : ParseResult :=
  let '(sch, url) :=
    match break_at (Pattern.lit ":") url with
    | (String c0 _ as pre, String _ rest) =>
        if is_alpha c0 && PyStr.all_chars is_scheme_char pre
        then (lower pre, rest) else ("", url)
    | _ => ("", url)
    end in
  let '(loc, url) :=
    match url with
    | String "/" (String "/" rest) => break_at (Pattern.in_class "/?#") rest
    | _ => ("", url)
    end in
  let '(url, _) := break_at (Pattern.lit "#") url in
  let '(url, _) := break_at (Pattern.lit "?") url in
  {| scheme := sch; netloc := loc; path := url |}.

End UrlModel.

(** A host on which every directory exists, every command succeeds and the
    listing prints the given lines. *)
Definition calm_world (listing : list string) : World :=
  {| is_dir_at := fun _ _ => true;
     call_succeeds := fun _ _ => true;
     output_lines := fun _ _ => Some listing;
     readable := fun _ _ => true |}.

(** A host with exactly the listed directories. *)
Definition world_with_dirs (dirs listing : list string) : World :=
  {| is_dir_at := fun _ p => existsb (String.eqb p) dirs;
     call_succeeds := fun _ _ => true;
     output_lines := fun _ _ => Some listing;
     readable := fun _ _ => true |}.

(** A host that refuses every command whose text starts with [refused]. *)
Definition refusing_world (refused : string) (listing : list string) : World :=
  {| is_dir_at := fun _ _ => true;
     call_succeeds := fun _ cmd => negb (PyStr.startswith refused cmd);
     output_lines := fun _ _ => Some listing;
     readable := fun _ _ => true |}.

(** A host whose listing command fails. *)
Definition unlistable_world : World :=
  {| is_dir_at := fun _ _ => true;
     call_succeeds := fun _ _ => true;
     output_lines := fun _ _ => None;
     readable := fun _ _ => true |}.

(** * Part II: the vocabulary of the statements *)

(** ** Reading a trace *)

Definition is_buildvrt_call (ev : event) : bool :=
  match ev with
  | CheckCall cmd => PyStr.startswith "gdalbuildvrt " cmd
  | _ => false
  end.

Definition is_translate_call (ev : event) : bool :=
  match ev with
  | CheckCall cmd | CheckOutput cmd => PyStr.startswith "gdal_translate " cmd
  | _ => false
  end.

Definition is_listing (ev : event) : bool :=
  match ev with
  | CheckOutput _ => true
  | _ => false
  end.

Definition is_read_file (ev : event) : bool :=
  match ev with
  | ReadFile _ => true
  | _ => false
  end.

(** The two location checks of [main] record one probe each: a directory
    test or a [gsutil ls] of the location. *)
Definition is_probe (ev : event) : bool :=
  match ev with
  | IsDir _ => true
  | CheckCall cmd => PyStr.startswith "gsutil ls " cmd
  | _ => false
  end.

(** [m] only adds events, all of them satisfying [P]. *)
Definition appends {A} (P : event -> Prop) (m : M A) : Prop :=
  forall t, exists evs, fst (m t) = (t ++ evs)%list /\ Forall P evs.

(** Order-preserving sublists. *)
Inductive Subseq {A : Type} : list A -> list A -> Prop :=
| Subseq_nil : Subseq [] []
| Subseq_skip x l1 l2 : Subseq l1 l2 -> Subseq l1 (x :: l2)
| Subseq_keep x l1 l2 : Subseq l1 l2 -> Subseq (x :: l1) (x :: l2).

(** The listed location in the words of the specification:
    [<src>/<year>/tarfiles/]. *)
Definition spec_tarfiles_dir (src : string) (year : Z) : string :=
  src ++ "/" ++ PyStr.str_of_int year ++ "/tarfiles/".

(** One test accepts no more than another. *)
Definition finer (p q : ascii -> bool) : Prop :=
  forall c, p c = true -> q c = true.

(** A test that never accepts the separator. *)
Definition excludes (sep : ascii) (p : ascii -> bool) : Prop :=
  forall c, p c = true -> Ascii.eqb c sep = false.

(** Neither a dot nor a slash: a text of such characters is a single path
    component without extension. *)
Definition is_plain (c : ascii) : bool :=
  negb (Ascii.eqb c ".") && negb (Ascii.eqb c "/").

(** The loop of lines 41-43 read as a single pass over the listing: a
    name that passes is kept; a name that fails is dropped and the name
    after it is kept without being tested. *)
Fixpoint skip_filter (keep : string -> bool) (l : list string)
  : list string :=
  match l with
  | [] => []
  | x :: rest =>
      if keep x then x :: skip_filter keep rest
      else match rest with
           | [] => []
           | y :: rest' => y :: skip_filter keep rest'
           end
  end.

(** Every name that fails the test is the last one or is followed by a
    name that passes. *)
Fixpoint no_adjacent_failures (keep : string -> bool) (l : list string)
  : bool :=
  match l with
  | [] => true
  | x :: rest =>
      (keep x || match rest with
                 | [] => true
                 | y :: _ => keep y
                 end)
      && no_adjacent_failures keep rest
  end.

(** The commands and checks a run may perform: a directory test, a
    [gsutil ls] or [gdalbuildvrt -overwrite] call, an [ls] or [gsutil ls]
    listing. *)
Definition is_expected (ev : event) : bool :=
  match ev with
  | IsDir _ => true
  | CheckCall cmd =>
      PyStr.startswith "gsutil ls " cmd
      || PyStr.startswith "gdalbuildvrt -overwrite " cmd
  | CheckOutput cmd =>
      PyStr.startswith "ls " cmd || PyStr.startswith "gsutil ls " cmd
  | ReadFile _ => false
  end.

(** The outcome the host gives to a probe after history [t]. *)
Definition probe_passes (w : World) (t : trace) (ev : event) : bool :=
  match ev with
  | IsDir p => is_dir_at w t p
  | CheckCall cmd => call_succeeds w t cmd
  | _ => false
  end.

(** The two decimal digits of a number below one hundred. *)
Definition two_digits (n : Z) : string :=
  let digit (d : Z) := ascii_of_nat (48 + Z.to_nat d) in
  String (digit (n / 10)%Z) (String (digit (n mod 10)%Z) "").

Section Vocabulary.

Variable urlparse : string -> ParseResult.
Variable w : World.

(** The archive as the raster layer sees it: ['/vsitar/{src}/{tarfile}']
    for a [Path], ['/vsitar/vsis3/{bucket}/{prefix}/{tarfile}'] for a
    [str]. *)
Definition archive_dir (src : source) (tarfile : string) : string :=
  match src with
  | PathSrc p => "/vsitar/" ++ p ++ "/" ++ tarfile
  | StrSrc s =>
      "/vsitar/vsis3/" ++ netloc (urlparse s) ++ "/"
        ++ PyStr.strip "/" (path (urlparse s)) ++ "/" ++ tarfile
  end.

(** ['{tile}_{yy}_{layer_suffix[layer]}_']: the member name up to and
    including the separator that precedes the postfix. *)
Definition member_stem (year : Z) (lyr : layer) (tarfile : string) : string :=
  PyStr.split_head "_" tarfile ++ "_" ++ yy year ++ "_"
    ++ layer_suffix lyr ++ "_".

(** What [build_vrt] can record: the listing of its source, and one
    mosaic-building command per layer over member paths of that source. *)
Inductive build_vrt_event (year : Z) (src : source) : event -> Prop :=
| bve_listing :
    build_vrt_event year src (CheckOutput (ls_cmd src))
| bve_mosaic lyr tarfile_list :
    build_vrt_event year src
      (CheckCall
         (buildvrt_cmd lyr (tif_list urlparse year src lyr tarfile_list))).

(** The value [main] hands to [build_vrt] when the source check passes. *)
Definition derived_src (args : Args) : source :=
  let u := urlparse (src args) in
  if is_object_store (scheme u)
  then StrSrc (scheme u ++ "://" ++ netloc u ++ "/"
                 ++ PyStr.strip "/" (path u) ++ "/"
                 ++ PyStr.str_of_int (year args) ++ "/tarfiles")
  else PathSrc (PyPath.joinpath (src args)
                  (PyStr.str_of_int (year args) ++ "/tarfiles")).

(** Everything [main] can record: the two probes, then what [build_vrt]
    records for the derived source. *)
Definition main_event (args : Args) (ev : event) : Prop :=
  is_probe ev = true
  \/ build_vrt_event (year args) (derived_src args) ev.

(** The value [main] computes as [dst] when the destination check
    passes. *)
Definition derived_dst (args : Args) : source :=
  let u := urlparse (dst args) in
  if is_object_store (scheme u)
  then StrSrc (scheme u ++ "://" ++ netloc u ++ "/"
                 ++ PyStr.strip "/" (path u) ++ "/"
                 ++ PyStr.str_of_int (year args))
  else PathSrc (PyPath.joinpath (dst args) (PyStr.str_of_int (year args))).

(** The probe of a location: a directory test for a [Path], a
    [gsutil ls] for a [str]. *)
Definition probe_of (loc : source) : event :=
  match loc with
  | PathSrc p => IsDir p
  | StrSrc s => CheckCall ("gsutil ls " ++ s)
  end.

(** What a failed probe raises: the exception of lines 163 and 179 for a
    [Path] named [arg] on the command line, the error of [check_call] for
    a [str]. *)
Definition probe_error (arg : string) (loc : source) : error :=
  match loc with
  | PathSrc _ => Exception (arg ++ " is not a valid directory path")
  | StrSrc s => CalledProcessError ("gsutil ls " ++ s)
  end.

(** The mosaic-building command of one layer over the surviving
    archives. *)
Definition layer_cmd (year : Z) (src : source) (tarfile_list : list string)
           (lyr : layer) : string :=
  buildvrt_cmd lyr (tif_list urlparse year src lyr tarfile_list).

(** The four mosaic-building commands of a run, in the order of the
    layers. *)
Definition mosaic_cmds (year : Z) (src : source) (tarfile_list : list string)
  : list string :=
  map (layer_cmd year src tarfile_list) layers.

(** A location that [main] treats as a local path and whose derived
    directory does not exist, whatever has been executed before. *)
Definition local_dir_missing (location leaf : string) : Prop :=
  is_object_store (scheme (urlparse location)) = false
  /\ forall t, is_dir_at w t (PyPath.joinpath location leaf) = false.

End Vocabulary.

(** * Part III: properties *)

(** ** Worked values *)

Example str_of_year :
  PyStr.drop 2 (PyStr.str_of_int 2020) = "20"
  /\ PyStr.str_of_int (-5) = "-5" /\ PyStr.str_of_int 0 = "0".
Proof. repeat split; reflexivity. Qed.

Example joinpath_values :
  PyPath.joinpath "/data//alos/./" "2020/tarfiles" = "/data/alos/2020/tarfiles"
  /\ PyPath.joinpath "" "2020/tarfiles" = "2020/tarfiles"
  /\ PyPath.joinpath "//x" "2020/tarfiles" = "//x/2020/tarfiles"
  /\ PyPath.joinpath "///x" "2020/tarfiles" = "/x/2020/tarfiles"
  /\ PyPath.name "gs://b/p/2020/tarfiles/N00E006_20_MOS_F02DAR.tar.gz"
     = "N00E006_20_MOS_F02DAR.tar.gz".
Proof. repeat split; reflexivity. Qed.

Example strip_values :
  PyStr.strip "/" "//a/b/" = "a/b" /\ PyStr.strip "/" "" = ""
  /\ PyStr.strip "/" "/" = "".
Proof. repeat split; reflexivity. Qed.

Example pattern_values :
  Pattern.tarfile_pattern_match "N00E006_20_MOS_F02DAR.tar.gz" = true
  /\ Pattern.tarfile_pattern_match "|00|006_20_MOS.tar.gz" = true
  /\ Pattern.tarfile_pattern_match "n00E006_20_MOS_F02DAR.tar.gz" = false
  /\ Pattern.tarfile_pattern_match "README.tar.gz" = false.
Proof. repeat split; reflexivity. Qed.

Example urlparse_values :
  UrlModel.urlparse "gs://bucket/alos/"
  = {| scheme := "gs"; netloc := "bucket"; path := "/alos/" |}
  /\ UrlModel.urlparse "S3://bucket"
     = {| scheme := "s3"; netloc := "bucket"; path := "" |}
  /\ UrlModel.urlparse "/data/alos"
     = {| scheme := ""; netloc := ""; path := "/data/alos" |}.
Proof. repeat split; reflexivity. Qed.

(** ** Facts about strings *)

Module StrFacts.
Import PyStr.

Lemma append_assoc (a b c : string) : (a ++ b) ++ c = a ++ b ++ c.
Proof.
  induction a as [|x a IH]; simpl; [reflexivity | rewrite IH; reflexivity].
Qed.

Lemma append_nil_r (a : string) : a ++ "" = a.
Proof.
  induction a as [|x a IH]; simpl; [reflexivity | rewrite IH; reflexivity].
Qed.

Lemma length_append (a b : string) :
  String.length (a ++ b) = String.length a + String.length b.
Proof.
  induction a as [|x a IH]; simpl; [reflexivity | rewrite IH; reflexivity].
Qed.

Lemma startswith_app (p s : string) : startswith p (p ++ s) = true.
Proof.
  induction p as [|x p IH]; simpl; [reflexivity|].
  rewrite Ascii.eqb_refl, IH. reflexivity.
Qed.

(** A prefix no longer than [x] is decided inside [x]. *)
Lemma startswith_within (p x y : string) :
  String.length p <= String.length x ->
  startswith p (x ++ y) = startswith p x.
Proof.
  revert x. induction p as [|a p IH]; intros x Hlen; [reflexivity|].
  destruct x as [|b x]; simpl in Hlen; [lia|].
  simpl. rewrite IH by lia. reflexivity.
Qed.

Lemma rev_string_acc (s acc : string) :
  rev_string acc s = rev_string "" s ++ acc.
Proof.
  revert acc. induction s as [|x s IH]; intros acc; simpl; [reflexivity|].
  rewrite IH, (IH (String x "")), append_assoc. reflexivity.
Qed.

Lemma rev_string_app (a b : string) :
  rev_string "" (a ++ b) = rev_string "" b ++ rev_string "" a.
Proof.
  induction a as [|x a IH]; simpl.
  - rewrite append_nil_r. reflexivity.
  - rewrite rev_string_acc, IH, (rev_string_acc a (String x "")),
      append_assoc. reflexivity.
Qed.

Lemma rev_string_length (s : string) :
  String.length (rev_string "" s) = String.length s.
Proof.
  induction s as [|x s IH]; simpl; [reflexivity|].
  rewrite rev_string_acc, length_append, IH. simpl. lia.
Qed.

(** A suffix no longer than [b] is decided inside [b]. *)
Lemma endswith_within (p a b : string) :
  String.length p <= String.length b ->
  endswith p (a ++ b) = endswith p b.
Proof.
  intros Hlen. unfold endswith.
  rewrite rev_string_app. apply startswith_within.
  rewrite !rev_string_length. exact Hlen.
Qed.

Lemma endswith_app (p a : string) : endswith p (a ++ p) = true.
Proof.
  unfold endswith. rewrite rev_string_app. apply startswith_app.
Qed.

Lemma all_chars_app ok (a b : string) :
  all_chars ok (a ++ b) = all_chars ok a && all_chars ok b.
Proof.
  induction a as [|x a IH]; simpl; [reflexivity|].
  rewrite IH, andb_assoc. reflexivity.
Qed.

Lemma all_chars_drop ok k : forall s,
  all_chars ok s = true -> all_chars ok (drop k s) = true.
Proof.
  induction k as [|k IH]; intros s Hs; [exact Hs|].
  destruct s as [|x s]; [reflexivity|].
  simpl in Hs. apply andb_true_iff in Hs. apply IH, Hs.
Qed.

Lemma split_head_cons c a s :
  split_head c (String a s)
  = if Ascii.eqb a c then "" else String a (split_head c s).
Proof.
  unfold split_head. simpl.
  destruct (Ascii.eqb a c); [reflexivity|].
  destruct (split c s); reflexivity.
Qed.

(** The decimal text of an integer: digits after an optional sign. *)
Lemma uint_digits d :
  all_chars Pattern.is_digit (NilEmpty.string_of_uint d) = true.
Proof. induction d; simpl; try rewrite IHd; reflexivity. Qed.

Lemma str_of_int_plain n : all_chars is_plain (str_of_int n) = true.
Proof.
  assert (Hplain : forall s, all_chars Pattern.is_digit s = true ->
                             all_chars is_plain s = true).
  { induction s as [|c s IH]; simpl; [reflexivity|]. intros H.
    apply andb_true_iff in H. destruct H as [Hc Hs].
    rewrite (IH Hs), andb_true_r. clear - Hc.
    destruct c as [[] [] [] [] [] [] [] []]; try reflexivity;
      vm_compute in Hc; discriminate Hc. }
  unfold str_of_int.
  destruct (Z.to_int n) as [d|d]; simpl.
  - destruct d; try reflexivity; apply Hplain;
      apply (uint_digits (_ d)).
  - destruct d; try reflexivity; apply Hplain;
      apply (uint_digits (_ d)).
Qed.

End StrFacts.

(** ** The filtering loop: what it keeps and what it drops *)

Module FilterFacts.
Import Filter Pattern.

Lemma remove_first_length x l :
  List.length (remove_first x l) <= List.length l.
Proof.
  induction l as [|y l IH]; simpl; [lia|].
  destruct (String.eqb x y); simpl; lia.
Qed.

Lemma Subseq_refl {A} (l : list A) : Subseq l l.
Proof. induction l; [apply Subseq_nil | apply Subseq_keep; assumption]. Qed.

Lemma Subseq_trans {A} (l1 l2 l3 : list A) :
  Subseq l1 l2 -> Subseq l2 l3 -> Subseq l1 l3.
Proof.
  intros H12 H23. revert l1 H12.
  induction H23 as [|x l2 l3 H IH|x l2 l3 H IH]; intros l1 H12.
  - assumption.
  - apply Subseq_skip. apply IH; assumption.
  - inversion H12; subst.
    + apply Subseq_skip. apply IH; assumption.
    + apply Subseq_keep. apply IH; assumption.
Qed.

Lemma remove_first_subseq x l : Subseq (remove_first x l) l.
Proof.
  induction l as [|y l IH]; simpl; [apply Subseq_nil|].
  destruct (String.eqb x y).
  - apply Subseq_skip, Subseq_refl.
  - apply Subseq_keep; assumption.
Qed.

(** Removing a name the test rejects leaves the accepted names alone. *)
Lemma remove_first_rejected keep x l :
  keep x = false ->
  filter keep (remove_first x l) = filter keep l.
Proof.
  intros Hx. induction l as [|y l IH]; simpl; [reflexivity|].
  destruct (String.eqb_spec x y) as [->|Hne].
  - rewrite Hx. reflexivity.
  - simpl. rewrite IH. reflexivity.
Qed.

(** The loop leaves alone every name its test accepts, hence every name
    accepted by a test that accepts no more. *)
Lemma remove_loop_accepted (keep keep' : string -> bool) rounds :
  (forall x, keep' x = true -> keep x = true) ->
  forall i l, filter keep' (remove_loop keep rounds i l) = filter keep' l.
Proof.
  intros Hfiner.
  induction rounds as [|rounds IH]; intros i l; simpl; [reflexivity|].
  destruct (nth_error l i) as [tarfile|]; [|reflexivity].
  destruct (keep tarfile) eqn:Hk.
  - apply IH.
  - rewrite IH. apply remove_first_rejected.
    destruct (keep' tarfile) eqn:Hk'; [|reflexivity].
    rewrite (Hfiner tarfile Hk') in Hk. discriminate Hk.
Qed.

Lemma remove_loop_subseq keep rounds : forall i l,
  Subseq (remove_loop keep rounds i l) l.
Proof.
  induction rounds as [|rounds IH]; intros i l; simpl; [apply Subseq_refl|].
  destruct (nth_error l i) as [tarfile|]; [|apply Subseq_refl].
  destruct (keep tarfile).
  - apply IH.
  - eapply Subseq_trans; [apply IH | apply remove_first_subseq].
Qed.

Lemma remove_loop_step keep rounds i l :
  remove_loop keep (S rounds) i l
  = match nth_error l i with
    | None => l
    | Some tarfile =>
        if keep tarfile
        then remove_loop keep rounds (S i) l
        else remove_loop keep rounds (S i) (remove_first tarfile l)
    end.
Proof. reflexivity. Qed.

(** Once the index can no longer stay inside the list, more rounds change
    nothing: the loop has stopped. *)
Lemma remove_loop_stops keep rounds : forall i l,
  List.length l <= i + rounds ->
  remove_loop keep (S rounds) i l = remove_loop keep rounds i l.
Proof.
  induction rounds as [|rounds IH]; intros i l Hlen.
  - simpl. destruct (nth_error l i) eqn:Hn; [|reflexivity].
    assert (i < List.length l) by (apply nth_error_Some; congruence). lia.
  - rewrite (remove_loop_step keep (S rounds) i l).
    rewrite (remove_loop_step keep rounds i l).
    destruct (nth_error l i) as [tarfile|]; [|reflexivity].
    destruct (keep tarfile).
    + apply IH. lia.
    + apply IH. pose proof (remove_first_length tarfile l). lia.
Qed.

(** [filter_tarfiles] is the loop run to its end: any larger bound on the
    number of rounds gives the same list. *)
Lemma filter_tarfiles_total l extra :
  remove_loop tarfile_pattern_match (List.length l + extra) 0 l
  = filter_tarfiles l.
Proof.
  unfold filter_tarfiles.
  induction extra as [|extra IH].
  - rewrite Nat.add_0_r. reflexivity.
  - rewrite Nat.add_succ_r, remove_loop_stops by lia. exact IH.
Qed.

(** A pattern with coarser tests accepts at least as much. *)
Lemma match_prefix_mono pat1 pat2 :
  Forall2 finer pat1 pat2 ->
  forall s, match_prefix pat1 s = true -> match_prefix pat2 s = true.
Proof.
  induction 1 as [|p q pat1 pat2 Hpq _ IH]; intros s Hs; [reflexivity|].
  destruct s as [|c s]; simpl in *; [discriminate|].
  apply andb_true_iff in Hs. destruct Hs as [Hc Hs].
  rewrite (Hpq c Hc), (IH s Hs). reflexivity.
Qed.

Lemma finer_refl p : finer p p.
Proof. intros c H; exact H. Qed.

Lemma finer_digit_word : finer is_digit is_word.
Proof.
  intros c H. unfold is_word. rewrite H, !orb_true_r. reflexivity.
Qed.

Lemma finer_NS : finer (in_class "NS") (in_class "N|S").
Proof.
  intros c; simpl; intros H.
  apply orb_true_iff in H. destruct H as [H|H]; rewrite H, ?orb_true_r;
    reflexivity.
Qed.

Lemma finer_EW : finer (in_class "EW") (in_class "E|W").
Proof.
  intros c; simpl; intros H.
  apply orb_true_iff in H. destruct H as [H|H]; rewrite H, ?orb_true_r;
    reflexivity.
Qed.

Ltac by_tests :=
  repeat first
    [ apply Forall2_nil
    | apply Forall2_cons;
      [ first [ apply finer_refl | apply finer_NS | apply finer_EW
              | apply finer_digit_word ] | ] ].

(** Every name of the form the specification describes is of the form
    with word characters, and every such name passes the pattern of
    line 34. *)
Lemma spec_pattern_word name :
  spec_pattern_match name = true -> word_pattern_match name = true.
Proof.
  apply match_prefix_mono. unfold spec_pattern, word_pattern. by_tests.
Qed.

Lemma word_pattern_accepted name :
  word_pattern_match name = true -> tarfile_pattern_match name = true.
Proof.
  apply match_prefix_mono. unfold word_pattern, tarfile_pattern. by_tests.
Qed.

(** Deciding a fact about every character by running through them. *)
Ltac by_all_chars c H :=
  destruct c as [[] [] [] [] [] [] [] []]; try reflexivity;
  vm_compute in H; discriminate H.

Lemma finer_word_plain : finer is_word is_plain.
Proof. intros c H. by_all_chars c H. Qed.

Lemma finer_hemisphere_plain members :
  members = "N|S" \/ members = "E|W" -> finer (in_class members) is_plain.
Proof. intros [->| ->] c H; by_all_chars c H. Qed.

(** When a pattern demands the separator after tests that all imply [P],
    the text before the first separator consists of [P] characters. *)
Lemma split_head_tests sep (P : ascii -> bool) post : forall pre s,
  Forall (fun p => finer p P) pre ->
  match_prefix (pre ++ lit sep :: post) s = true ->
  PyStr.all_chars P (PyStr.split_head sep s) = true.
Proof.
  induction pre as [|p pre IH]; intros s Hpre Hs;
    (destruct s as [|a s]; [discriminate Hs|]);
    simpl in Hs; apply andb_true_iff in Hs; destruct Hs as [Ha Hs];
    rewrite StrFacts.split_head_cons.
  - unfold lit in Ha. rewrite Ha. reflexivity.
  - destruct (Ascii.eqb a sep); [reflexivity|].
    inversion Hpre as [|? ? Hp Hpre']; subst.
    simpl. rewrite (Hp a Ha), (IH s Hpre' Hs). reflexivity.
Qed.

(** The tile of a name that passes the pattern has neither dot nor
    slash. *)
Lemma tile_plain tarfile :
  tarfile_pattern_match tarfile = true ->
  PyStr.all_chars is_plain (PyStr.split_head "_" tarfile) = true.
Proof.
  intros Hm.
  apply (split_head_tests "_" is_plain
           [is_word; is_word; lit "_"; lit "M"; lit "O"; lit "S"]
           [in_class "N|S"; is_word; is_word;
            in_class "E|W"; is_word; is_word; is_word]);
    [|exact Hm].
  repeat first
    [ apply Forall_nil
    | apply Forall_cons;
      [ first [ apply finer_word_plain
              | apply finer_hemisphere_plain; auto ] | ] ].
Qed.

End FilterFacts.

(** ** Traces of the script *)

Section TraceFacts.

Variable urlparse : string -> ParseResult.
Variable w : World.

Lemma appends_ret {A} P (a : A) : appends P (ret a).
Proof. intros t. exists []. simpl. rewrite app_nil_r. auto. Qed.

Lemma appends_raise {A} P e : appends P (@raise A e).
Proof. intros t. exists []. simpl. rewrite app_nil_r. auto. Qed.

Lemma appends_bind {A B} P (m : M A) (k : A -> M B) :
  appends P m -> (forall a, appends P (k a)) -> appends P (bind m k).
Proof.
  intros Hm Hk t. unfold bind.
  destruct (Hm t) as [evs [Ht Hevs]].
  destruct (m t) as [t' [a|e]]; simpl in Ht; subst t'.
  - destruct (Hk a (t ++ evs)%list) as [evs' [Ht' Hevs']].
    exists (evs ++ evs')%list. rewrite Ht', app_assoc. split; [reflexivity|].
    apply Forall_app; split; assumption.
  - exists evs. split; [reflexivity | assumption].
Qed.

Lemma appends_for_each {A} P (l : list A) body :
  (forall x, appends P (body x)) -> appends P (for_each l body).
Proof.
  intros Hbody. induction l as [|x l IH]; simpl.
  - apply appends_ret.
  - apply appends_bind; [apply Hbody | intros _; exact IH].
Qed.

Lemma appends_weaken {A} (P Q : event -> Prop) (m : M A) :
  (forall ev, P ev -> Q ev) -> appends P m -> appends Q m.
Proof.
  intros HPQ Hm t. destruct (Hm t) as [evs [Ht Hevs]].
  exists evs. split; [assumption|].
  eapply Forall_impl; [exact HPQ | exact Hevs].
Qed.

Lemma appends_check_call (P : event -> Prop) cmd :
  P (CheckCall cmd) -> appends P (check_call w cmd).
Proof. intros H t. exists [CheckCall cmd]. simpl. auto. Qed.

Lemma appends_check_output (P : event -> Prop) cmd :
  P (CheckOutput cmd) -> appends P (check_output w cmd).
Proof. intros H t. exists [CheckOutput cmd]. simpl. auto. Qed.

Lemma appends_is_dir (P : event -> Prop) p :
  P (IsDir p) -> appends P (is_dir w p).
Proof. intros H t. exists [IsDir p]. simpl. auto. Qed.

Lemma build_layer_appends (P : event -> Prop) year src names lyr :
  P (CheckCall (buildvrt_cmd lyr (tif_list urlparse year src lyr names))) ->
  appends P (build_layer urlparse w year src names lyr).
Proof.
  intros H. unfold build_layer.
  apply appends_bind; [|intros _; apply appends_ret].
  apply appends_check_call. exact H.
Qed.

Lemma build_vrt_appends year src :
  appends (build_vrt_event urlparse year src)
          (build_vrt urlparse w year src).
Proof.
  unfold build_vrt.
  apply appends_bind; [apply appends_check_output; constructor|].
  intros lines.
  destruct (Filter.filter_tarfiles (map PyPath.name lines)) as [|n ns].
  - apply appends_raise.
  - apply appends_for_each. intros lyr.
    apply build_layer_appends. constructor.
Qed.

(** Entering [build_vrt] always runs the listing command first. *)
Lemma build_vrt_lists_first year src t :
  exists rest, fst (build_vrt urlparse w year src t)
               = (t ++ CheckOutput (ls_cmd src) :: rest)%list.
Proof.
  unfold build_vrt, bind at 1, check_output.
  destruct (output_lines w t (ls_cmd src)) as [lines|].
  - destruct (Filter.filter_tarfiles (map PyPath.name lines)) as [|n ns].
    + exists []. reflexivity.
    + set (m := for_each _ _).
      assert (Hm : appends (fun _ => True) m).
      { apply appends_for_each. intros lyr.
        apply build_layer_appends. exact I. }
      destruct (Hm (t ++ [CheckOutput (ls_cmd src)])%list) as [evs [Ht _]].
      exists evs. rewrite Ht, <- app_assoc. reflexivity.
  - exists []. reflexivity.
Qed.

Lemma check_src_appends args :
  appends (fun ev => is_probe ev = true) (check_src urlparse w args).
Proof.
  unfold check_src.
  destruct (is_object_store _).
  - apply appends_bind; [|intros _; apply appends_ret].
    apply appends_check_call. reflexivity.
  - apply appends_bind; [apply appends_is_dir; reflexivity|].
    intros [|]; [apply appends_ret | apply appends_raise].
Qed.

Lemma check_dst_appends args :
  appends (fun ev => is_probe ev = true) (check_dst urlparse w args).
Proof.
  unfold check_dst.
  destruct (is_object_store _).
  - apply appends_bind; [|intros _; apply appends_ret].
    apply appends_check_call. reflexivity.
  - apply appends_bind; [apply appends_is_dir; reflexivity|].
    intros [|]; [apply appends_ret | apply appends_raise].
Qed.

Lemma check_src_result args t t' s :
  check_src urlparse w args t = (t', Ok s) -> s = derived_src urlparse args.
Proof.
  unfold check_src, derived_src.
  destruct (is_object_store _).
  - unfold bind, check_call, ret.
    destruct (call_succeeds w t _); intros H; inversion H; reflexivity.
  - unfold bind, is_dir, ret, raise.
    destruct (is_dir_at w t _); intros H; inversion H; reflexivity.
Qed.

Lemma main_appends args :
  appends (main_event urlparse args) (main urlparse w args).
Proof.
  intros t. unfold main, bind.
  destruct (check_src_appends args t) as [evs1 [H1 F1]].
  destruct (check_src urlparse w args t) as [t1 [s|e]] eqn:Hsrc;
    simpl in H1; subst t1.
  - apply check_src_result in Hsrc. subst s.
    destruct (check_dst_appends args (t ++ evs1)%list) as [evs2 [H2 F2]].
    destruct (check_dst urlparse w args (t ++ evs1)%list) as [t2 [d|e]];
      simpl in H2; subst t2.
    + destruct (build_vrt_appends (year args) (derived_src urlparse args)
                  ((t ++ evs1) ++ evs2)%list) as [evs3 [H3 F3]].
      exists (evs1 ++ evs2 ++ evs3)%list. split.
      * rewrite H3, <- !app_assoc. reflexivity.
      * repeat (apply Forall_app; split);
          (eapply Forall_impl; [|eassumption]); intros ev Hev;
          [left | left | right]; exact Hev.
    + exists (evs1 ++ evs2)%list. split.
      * simpl. rewrite app_assoc. reflexivity.
      * apply Forall_app; split;
          (eapply Forall_impl; [|eassumption]); intros ev Hev; left;
          exact Hev.
  - exists evs1. split; [reflexivity|].
    eapply Forall_impl; [|eassumption]. intros ev Hev; left; exact Hev.
Qed.

Lemma build_vrt_event_kind year src ev :
  build_vrt_event urlparse year src ev ->
  is_translate_call ev = false /\ is_read_file ev = false
  /\ is_probe ev = false.
Proof.
  intros [|lyr names].
  - destruct src; repeat split; reflexivity.
  - repeat split; reflexivity.
Qed.

Lemma probe_kind ev :
  is_probe ev = true ->
  is_translate_call ev = false /\ is_read_file ev = false
  /\ is_listing ev = false /\ is_buildvrt_call ev = false.
Proof.
  destruct ev as [p|cmd|cmd|p]; cbn [is_probe]; try discriminate.
  - intros _. repeat split; reflexivity.
  - intros H.
    destruct cmd as [|c0 [|c1 cmd]]; cbn [PyStr.startswith] in H;
      try discriminate H.
    + apply andb_true_iff in H. destruct H as [_ H]. discriminate H.
    + apply andb_true_iff in H. destruct H as [H0 H].
      apply andb_true_iff in H. destruct H as [H1 _].
      apply Ascii.eqb_eq in H0, H1. subst c0 c1.
      repeat split; reflexivity.
Qed.

(** Every listing a run records is the listing of the derived source:
    [ls <dir>/*.tar.gz] for a local source, [gsutil ls <url>/*.tar.gz] for
    an object store, where the directory or URL is the source joined with
    the year and [tarfiles]. *)
Lemma main_listing_cmd args :
  appends (fun ev => is_listing ev = true ->
                     ev = CheckOutput (ls_cmd (derived_src urlparse args)))
          (main urlparse w args).
Proof.
  eapply appends_weaken; [|apply main_appends].
  intros ev [Hp|Hb] Hl.
  - apply probe_kind in Hp. destruct Hp as [_ [_ [Hn _]]]. congruence.
  - destruct Hb; [reflexivity | discriminate Hl].
Qed.

Lemma check_src_missing args t :
  local_dir_missing urlparse w (src args)
    (PyStr.str_of_int (year args) ++ "/tarfiles") ->
  snd (check_src urlparse w args t)
  = Raise (Exception (src args ++ " is not a valid directory path")).
Proof.
  intros [Hlocal Hdir]. unfold check_src. rewrite Hlocal.
  unfold bind, is_dir. rewrite Hdir. reflexivity.
Qed.

Lemma check_dst_missing args t :
  local_dir_missing urlparse w (dst args) (PyStr.str_of_int (year args)) ->
  snd (check_dst urlparse w args t)
  = Raise (Exception (dst args ++ " is not a valid directory path")).
Proof.
  intros [Hlocal Hdir]. unfold check_dst. rewrite Hlocal.
  unfold bind, is_dir. rewrite Hdir. reflexivity.
Qed.

(** [warp_to_tiles], had it been called, would have read the tile file. *)
Lemma warp_to_tiles_reads utm_tiles t :
  fst (warp_to_tiles w utm_tiles t) = (t ++ [ReadFile utm_tiles])%list.
Proof. reflexivity. Qed.

(** No run of [build_vrt] executes a conversion command: the text of
    lines 70-73 is never passed to a subprocess. *)
Lemma build_vrt_never_translates year src :
  appends (fun ev => is_translate_call ev = false)
          (build_vrt urlparse w year src).
Proof.
  eapply appends_weaken; [|apply build_vrt_appends].
  intros ev Hb. apply build_vrt_event_kind in Hb. apply Hb.
Qed.

(** When filtering leaves nothing, [build_vrt] raises right after the
    listing. *)
Lemma build_vrt_empty_raises year src t lines :
  output_lines w t (ls_cmd src) = Some lines ->
  Filter.filter_tarfiles (map PyPath.name lines) = [] ->
  build_vrt urlparse w year src t
  = ((t ++ [CheckOutput (ls_cmd src)])%list,
     Raise (Exception (no_tarfiles_msg year src))).
Proof.
  intros Hout Hnone. unfold build_vrt, bind, check_output.
  rewrite Hout, Hnone. reflexivity.
Qed.

End TraceFacts.

(** ** The member-path template *)

Section Template.

Variable urlparse : string -> ParseResult.

Lemma tif_shape year src lyr tarfile :
  tif urlparse year src lyr tarfile
  = archive_dir urlparse src tarfile ++ "/" ++ member_stem year lyr tarfile
      ++ postfix year ++ suffix year.
Proof.
  unfold tif, archive_dir, member_stem.
  destruct src; rewrite !StrFacts.append_assoc; reflexivity.
Qed.

(** The same path cut before the layer suffix, so that the tail is a
    literal once the layer and the year tests are known. *)
Lemma tif_tail year src lyr tarfile :
  tif urlparse year src lyr tarfile
  = (archive_dir urlparse src tarfile ++ "/"
       ++ PyStr.split_head "_" tarfile ++ "_" ++ yy year ++ "_")
      ++ (layer_suffix lyr ++ "_" ++ postfix year ++ suffix year).
Proof.
  rewrite tif_shape. unfold member_stem.
  rewrite !StrFacts.append_assoc. reflexivity.
Qed.

Lemma postfix_old year : (year < 2014)%Z -> postfix year = "".
Proof. unfold postfix. destruct (Z.ltb_spec year 2014); [reflexivity|lia]. Qed.

Lemma postfix_new year : (2014 <= year)%Z -> postfix year = "F02DAR".
Proof. unfold postfix. destruct (Z.ltb_spec year 2014); [lia|reflexivity]. Qed.

Lemma suffix_old year : (year < 2019)%Z -> suffix year = "".
Proof. unfold suffix. destruct (Z.ltb_spec year 2019); [reflexivity|lia]. Qed.

Lemma suffix_new year : (2019 <= year)%Z -> suffix year = ".tif".
Proof. unfold suffix. destruct (Z.ltb_spec year 2019); [lia|reflexivity]. Qed.

(** For an archive that passes the pattern, the member name without its
    extension has neither dot nor slash. *)
Lemma member_name_plain year lyr tarfile :
  Pattern.tarfile_pattern_match tarfile = true ->
  PyStr.all_chars is_plain (member_stem year lyr tarfile ++ postfix year)
  = true.
Proof.
  intros Hm. unfold member_stem.
  rewrite !StrFacts.all_chars_app.
  rewrite (FilterFacts.tile_plain tarfile Hm).
  unfold yy.
  rewrite (StrFacts.all_chars_drop is_plain 2 _ (StrFacts.str_of_int_plain year)).
  unfold postfix. destruct (year <? 2014)%Z; destruct lyr; reflexivity.
Qed.

End Template.

(** ** Archive filtering *)

(** C1, as the script behaves: filtering accepts names of the form
    hemisphere letter (N or S), two word characters, hemisphere letter (E or
    W), three word characters, underscore, two word characters, underscore,
    MOS, where a word character is a letter, a digit or an underscore and
    not only a digit.  It never removes such a name: the names of this form
    are the same, in the same order and number, before and after filtering;
    the surviving list is an order-preserving sublist of the listing; every
    listed name of the form with digits survives; and a listed name that
    does not survive is not of this form. *)
Theorem filter_tarfiles_keeps_matching (l : list string) :
  filter Pattern.word_pattern_match (Filter.filter_tarfiles l)
  = filter Pattern.word_pattern_match l
  /\ Subseq (Filter.filter_tarfiles l) l
  /\ (forall name, In name l ->
        Pattern.spec_pattern_match name = true
        \/ Pattern.word_pattern_match name = true ->
        In name (Filter.filter_tarfiles l))
  /\ (forall name, In name l -> ~ In name (Filter.filter_tarfiles l) ->
        Pattern.word_pattern_match name = false).
Proof.
  assert (Hkeep : filter Pattern.word_pattern_match (Filter.filter_tarfiles l)
                  = filter Pattern.word_pattern_match l)
    by (apply FilterFacts.remove_loop_accepted;
        exact FilterFacts.word_pattern_accepted).
  assert (Hin : forall name, In name l ->
                  Pattern.word_pattern_match name = true ->
                  In name (Filter.filter_tarfiles l)).
  { intros name Hl Hm.
    assert (H : In name (filter Pattern.word_pattern_match l))
      by (apply filter_In; split; assumption).
    rewrite <- Hkeep in H. apply filter_In in H. apply H. }
  split; [exact Hkeep|].
  split; [apply FilterFacts.remove_loop_subseq|].
  split.
  - intros name Hl [Hs|Hm]; apply Hin; try assumption.
    apply FilterFacts.spec_pattern_word; assumption.
  - intros name Hl Hout.
    destruct (Pattern.word_pattern_match name) eqn:Hm; [|reflexivity].
    exfalso. apply Hout. apply Hin; assumption.
Qed.

Lemma filter_tarfiles_keeps_matching_witness :
  In "N00E006_20_MOS_F02DAR.tar.gz"
     (Filter.filter_tarfiles
        ["checksums.tar.gz"; "N00E006_20_MOS_F02DAR.tar.gz"]).
Proof.
  apply (filter_tarfiles_keeps_matching
           ["checksums.tar.gz"; "N00E006_20_MOS_F02DAR.tar.gz"]).
  - simpl. right. left. reflexivity.
  - left. reflexivity.
Defined.

(** C1 as stated fails: a name with letters in the coordinate positions is
    accepted although it is not of the digit form. *)
Lemma filter_tarfiles_not_exact :
  ~ (forall name,
       In name (Filter.filter_tarfiles ["NxxEyyy_zz_MOS.tar.gz"])
       <-> In name ["NxxEyyy_zz_MOS.tar.gz"]
           /\ Pattern.spec_pattern_match name = true).
Proof.
  intros H.
  destruct (H "NxxEyyy_zz_MOS.tar.gz") as [Hsurvives _].
  assert (Hin : In "NxxEyyy_zz_MOS.tar.gz"
                   (Filter.filter_tarfiles ["NxxEyyy_zz_MOS.tar.gz"]))
    by (left; reflexivity).
  destruct (Hsurvives Hin) as [_ Hspec].
  vm_compute in Hspec. discriminate Hspec.
Qed.

(** The names that pass the pattern of line 34 itself are kept as well, in
    order and number. *)
Lemma filter_tarfiles_keeps_accepted (l : list string) :
  filter Pattern.tarfile_pattern_match (Filter.filter_tarfiles l)
  = filter Pattern.tarfile_pattern_match l.
Proof. apply FilterFacts.remove_loop_accepted. auto. Qed.

(** The loop skips the name that follows a removed one: of two adjacent
    names that fail the pattern, the second stays in the list. *)
Lemma filter_tarfiles_skips_after_removal :
  Filter.filter_tarfiles ["README.tar.gz"; "notes.tar.gz"] = ["notes.tar.gz"]
  /\ Pattern.tarfile_pattern_match "notes.tar.gz" = false.
Proof. split; reflexivity. Qed.

(** ** Member paths *)

(** C5: before 2014 nothing stands between the separator that ends the
    layer suffix and the extension; from 2014 on the fixed postfix
    [F02DAR] stands there. *)
Theorem tif_postfix_by_era (urlparse : string -> ParseResult) (year : Z)
        (src : source) (lyr : layer) (tarfile : string) :
  ((year < 2014)%Z ->
   postfix year = ""
   /\ tif urlparse year src lyr tarfile
      = archive_dir urlparse src tarfile ++ "/"
          ++ member_stem year lyr tarfile ++ suffix year)
  /\ ((2014 <= year)%Z ->
      postfix year = "F02DAR"
      /\ tif urlparse year src lyr tarfile
         = archive_dir urlparse src tarfile ++ "/"
             ++ member_stem year lyr tarfile ++ "F02DAR" ++ suffix year).
Proof.
  split; intros Hy; rewrite tif_shape.
  - rewrite (postfix_old year Hy). split; reflexivity.
  - rewrite (postfix_new year Hy). split; reflexivity.
Qed.

Lemma tif_postfix_by_era_witness :
  tif UrlModel.urlparse 2010 (PathSrc "/data/2010/tarfiles") HH
      "N00E006_10_MOS.tar.gz"
  = "/vsitar//data/2010/tarfiles/N00E006_10_MOS.tar.gz/N00E006_10_sl_HH_"
  /\ tif UrlModel.urlparse 2015 (PathSrc "/data/2015/tarfiles") HH
         "N00E006_15_MOS_F02DAR.tar.gz"
     = "/vsitar//data/2015/tarfiles/N00E006_15_MOS_F02DAR.tar.gz/N00E006_15_sl_HH_F02DAR".
Proof.
  split.
  - destruct (tif_postfix_by_era UrlModel.urlparse 2010
                (PathSrc "/data/2010/tarfiles") HH "N00E006_10_MOS.tar.gz")
      as [Hold _].
    destruct (Hold ltac:(lia)) as [_ ->]. reflexivity.
  - destruct (tif_postfix_by_era UrlModel.urlparse 2015
                (PathSrc "/data/2015/tarfiles") HH
                "N00E006_15_MOS_F02DAR.tar.gz") as [_ Hnew].
    destruct (Hnew ltac:(lia)) as [_ ->]. reflexivity.
Defined.

(** C6: before 2019 the member path stops at the postfix, with no
    extension appended: it does not end in [.tif], and for an archive that
    passes the pattern the member name has no dot at all.  From 2019 on the
    path is the same text followed by [.tif]. *)
Theorem tif_extension_by_year (urlparse : string -> ParseResult) (year : Z)
        (src : source) (lyr : layer) (tarfile : string) :
  ((year < 2019)%Z ->
   tif urlparse year src lyr tarfile
   = archive_dir urlparse src tarfile ++ "/"
       ++ member_stem year lyr tarfile ++ postfix year
   /\ PyStr.endswith ".tif" (tif urlparse year src lyr tarfile) = false
   /\ (Pattern.tarfile_pattern_match tarfile = true ->
       PyStr.all_chars is_plain (member_stem year lyr tarfile ++ postfix year)
       = true))
  /\ ((2019 <= year)%Z ->
      tif urlparse year src lyr tarfile
      = archive_dir urlparse src tarfile ++ "/"
          ++ member_stem year lyr tarfile ++ postfix year ++ ".tif"
      /\ PyStr.endswith ".tif" (tif urlparse year src lyr tarfile) = true).
Proof.
  split; intros Hy.
  - split; [|split].
    + rewrite tif_shape, (suffix_old year Hy), StrFacts.append_nil_r.
      reflexivity.
    + rewrite tif_tail, (suffix_old year Hy).
      rewrite StrFacts.endswith_within.
      * unfold postfix. destruct (year <? 2014)%Z; destruct lyr; reflexivity.
      * unfold postfix. destruct (year <? 2014)%Z; destruct lyr; simpl; lia.
    + apply member_name_plain.
  - split.
    + rewrite tif_shape, (suffix_new year Hy). reflexivity.
    + rewrite tif_shape, (suffix_new year Hy).
      rewrite <- !StrFacts.append_assoc. apply StrFacts.endswith_app.
Qed.

Lemma tif_extension_by_year_witness :
  PyStr.endswith ".tif"
    (tif UrlModel.urlparse 2018 (StrSrc "s3://bucket/alos/2018/tarfiles") DOY
         "S10W060_18_MOS_F02DAR.tar.gz") = false
  /\ PyStr.all_chars is_plain
       (member_stem 2018 DOY "S10W060_18_MOS_F02DAR.tar.gz" ++ postfix 2018)
     = true
  /\ PyStr.endswith ".tif"
       (tif UrlModel.urlparse 2019 (StrSrc "s3://bucket/alos/2019/tarfiles") DOY
            "S10W060_19_MOS_F02DAR.tar.gz") = true.
Proof.
  split; [|split].
  - apply (tif_extension_by_year UrlModel.urlparse 2018
             (StrSrc "s3://bucket/alos/2018/tarfiles") DOY
             "S10W060_18_MOS_F02DAR.tar.gz"). lia.
  - apply (tif_extension_by_year UrlModel.urlparse 2018
             (StrSrc "s3://bucket/alos/2018/tarfiles") DOY
             "S10W060_18_MOS_F02DAR.tar.gz"); [lia | reflexivity].
  - apply (tif_extension_by_year UrlModel.urlparse 2019
             (StrSrc "s3://bucket/alos/2019/tarfiles") DOY
             "S10W060_19_MOS_F02DAR.tar.gz"). lia.
Defined.

(** C9: for a [str] source, whatever its scheme, the member path starts
    with [/vsitar/vsis3/], the bucket read from the source, and a slash; it
    never starts with a [/vsitar/vsigs/] prefix. *)
Theorem tif_object_store_prefix (urlparse : string -> ParseResult) (year : Z)
        (s : string) (lyr : layer) (tarfile : string) :
  PyStr.startswith ("/vsitar/vsis3/" ++ netloc (urlparse s) ++ "/")
    (tif urlparse year (StrSrc s) lyr tarfile) = true
  /\ PyStr.startswith "/vsitar/vsigs/"
       (tif urlparse year (StrSrc s) lyr tarfile) = false.
Proof.
  split.
  - set (head := "/vsitar/vsis3/" ++ netloc (urlparse s) ++ "/").
    assert (Hcut : exists rest,
               tif urlparse year (StrSrc s) lyr tarfile = head ++ rest).
    { eexists. unfold tif, head. rewrite !StrFacts.append_assoc.
      reflexivity. }
    destruct Hcut as [rest ->]. apply StrFacts.startswith_app.
  - reflexivity.
Qed.

(** Both object-store schemes reach [build_vrt] as a [str]. *)
Lemma object_store_src_is_str (urlparse : string -> ParseResult)
      (args : Args) :
  scheme (urlparse (src args)) = "s3" \/ scheme (urlparse (src args)) = "gs" ->
  exists s, derived_src urlparse args = StrSrc s.
Proof.
  intros Hs. unfold derived_src.
  assert (Hstore : is_object_store (scheme (urlparse (src args))) = true)
    by (destruct Hs as [-> | ->]; reflexivity).
  rewrite Hstore. eexists. reflexivity.
Qed.

(** A [gs] source on a host where everything succeeds: the members are
    addressed through [vsis3]. *)
Example main_gs_source :
  main UrlModel.urlparse
    (calm_world ["gs://bucket/alos/2020/tarfiles/N00E006_20_MOS_F02DAR.tar.gz"])
    {| tiles := "tiles.geojson"; year := 2020;
       src := "gs://bucket/alos/"; dst := "/out" |} []
  = ([ CheckCall "gsutil ls gs://bucket/alos/2020/tarfiles";
       IsDir "/out/2020";
       CheckOutput "gsutil ls gs://bucket/alos/2020/tarfiles/*.tar.gz";
       CheckCall "gdalbuildvrt -overwrite HH_0.vrt /vsitar/vsis3/bucket/alos/2020/tarfiles/N00E006_20_MOS_F02DAR.tar.gz/N00E006_20_sl_HH_F02DAR.tif";
       CheckCall "gdalbuildvrt -overwrite HV_0.vrt /vsitar/vsis3/bucket/alos/2020/tarfiles/N00E006_20_MOS_F02DAR.tar.gz/N00E006_20_sl_HV_F02DAR.tif";
       CheckCall "gdalbuildvrt -overwrite INC_0.vrt /vsitar/vsis3/bucket/alos/2020/tarfiles/N00E006_20_MOS_F02DAR.tar.gz/N00E006_20_linci_F02DAR.tif";
       CheckCall "gdalbuildvrt -overwrite DOY_0.vrt /vsitar/vsis3/bucket/alos/2020/tarfiles/N00E006_20_MOS_F02DAR.tar.gz/N00E006_20_date_F02DAR.tif" ],
     Ok tt).
Proof. vm_compute. reflexivity. Qed.

(** C10: before 2014 the member name is tile, two-digit year and layer
    suffix, each followed by an underscore, and nothing else: the path ends
    with the underscore that follows the layer suffix. *)
Theorem tif_pre2014_trailing_underscore (urlparse : string -> ParseResult)
        (year : Z) (src : source) (lyr : layer) (tarfile : string) :
  (year < 2014)%Z ->
  postfix year ++ suffix year = ""
  /\ tif urlparse year src lyr tarfile
     = archive_dir urlparse src tarfile ++ "/"
         ++ PyStr.split_head "_" tarfile ++ "_" ++ yy year ++ "_"
         ++ layer_suffix lyr ++ "_"
  /\ PyStr.endswith (layer_suffix lyr ++ "_")
       (tif urlparse year src lyr tarfile) = true.
Proof.
  intros Hy.
  assert (Hp : postfix year = "") by (apply postfix_old; exact Hy).
  assert (Hs : suffix year = "") by (apply suffix_old; lia).
  split; [rewrite Hp, Hs; reflexivity|].
  split.
  - rewrite tif_shape, Hp, Hs. unfold member_stem.
    rewrite !StrFacts.append_assoc. reflexivity.
  - rewrite tif_tail, Hp, Hs. cbn [append].
    apply StrFacts.endswith_app.
Qed.

Lemma tif_pre2014_trailing_underscore_witness :
  tif UrlModel.urlparse 2007 (PathSrc "/data/2007/tarfiles") INC
      "N05E010_07_MOS.tar.gz"
  = "/vsitar//data/2007/tarfiles/N05E010_07_MOS.tar.gz/N05E010_07_linci_".
Proof.
  destruct (tif_pre2014_trailing_underscore UrlModel.urlparse 2007
              (PathSrc "/data/2007/tarfiles") INC "N05E010_07_MOS.tar.gz")
    as [_ [-> _]]; [lia | reflexivity].
Defined.

(** ** Runs of [build_vrt] and [main] *)

(** C4: when the source or the destination is a local path whose derived
    directory does not exist, the run ends with an exception and has
    recorded nothing but location probes: no archive listing, which is the
    first thing [build_vrt] does, and no mosaic-building command. *)
Theorem main_missing_dir_fails_before_build_vrt
        (urlparse : string -> ParseResult) (w : World) (args : Args) :
  local_dir_missing urlparse w (src args)
    (PyStr.str_of_int (year args) ++ "/tarfiles")
  \/ local_dir_missing urlparse w (dst args) (PyStr.str_of_int (year args)) ->
  exists t e,
    main urlparse w args [] = (t, Raise e)
    /\ Forall (fun ev => is_probe ev = true /\ is_listing ev = false
                         /\ is_buildvrt_call ev = false) t.
Proof.
  intros Hmissing. unfold main, bind.
  assert (Hprobe : forall evs, Forall (fun ev => is_probe ev = true) evs ->
            Forall (fun ev => is_probe ev = true /\ is_listing ev = false
                              /\ is_buildvrt_call ev = false) evs).
  { intros evs. apply Forall_impl. intros ev Hp.
    destruct (probe_kind ev Hp) as [_ [_ [Hl Hb]]]. auto. }
  destruct (check_src_appends urlparse w args []) as [evs1 [H1 F1]].
  pose proof (check_src_missing urlparse w args []) as Hsrc.
  destruct (check_src urlparse w args []) as [t1 [s|e]];
    simpl in H1, Hsrc; subst t1.
  - destruct (check_dst_appends urlparse w args evs1) as [evs2 [H2 F2]].
    pose proof (check_dst_missing urlparse w args evs1) as Hdst.
    destruct (check_dst urlparse w args evs1) as [t2 [d|e]];
      simpl in H2, Hdst; subst t2.
    + destruct Hmissing as [Hm|Hm];
        [specialize (Hsrc Hm) | specialize (Hdst Hm)]; discriminate.
    + exists (evs1 ++ evs2)%list, e. split; [reflexivity|].
      apply Hprobe. apply Forall_app; split; assumption.
  - exists evs1, e. split; [reflexivity|]. apply Hprobe; assumption.
Qed.

Lemma main_missing_dir_fails_before_build_vrt_witness :
  exists t e,
    main UrlModel.urlparse (world_with_dirs ["/data/2020/tarfiles"] [])
         {| tiles := "tiles.geojson"; year := 2020;
            src := "/data"; dst := "/out" |} []
    = (t, Raise e)
    /\ Forall (fun ev => is_probe ev = true /\ is_listing ev = false
                         /\ is_buildvrt_call ev = false) t.
Proof.
  apply main_missing_dir_fails_before_build_vrt.
  right. split; [reflexivity | intros t; reflexivity].
Defined.

(** The same run, spelled out: the source directory is found, the
    destination directory is not. *)
Example main_missing_dst :
  main UrlModel.urlparse (world_with_dirs ["/data/2020/tarfiles"] [])
       {| tiles := "tiles.geojson"; year := 2020;
          src := "/data"; dst := "/out" |} []
  = ([IsDir "/data/2020/tarfiles"; IsDir "/out/2020"],
     Raise (Exception "/out is not a valid directory path")).
Proof. vm_compute. reflexivity. Qed.

(** C8: the [tiles] argument does not reach the run.  Two runs that
    differ only in it record the same events and end the same way, and no
    run of [main] reads a tile file. *)
Theorem main_ignores_tiles (urlparse : string -> ParseResult) (w : World)
        (tiles1 tiles2 : string) (year : Z) (src dst : string) (t : trace) :
  main urlparse w
    {| tiles := tiles1; year := year; src := src; dst := dst |} t
  = main urlparse w
      {| tiles := tiles2; year := year; src := src; dst := dst |} t
  /\ appends (fun ev => is_read_file ev = false)
       (main urlparse w
          {| tiles := tiles1; year := year; src := src; dst := dst |}).
Proof.
  split; [reflexivity|].
  eapply appends_weaken; [|apply main_appends].
  intros ev [Hp|Hb].
  - apply probe_kind in Hp. apply Hp.
  - apply build_vrt_event_kind in Hb. apply Hb.
Qed.

(** The text the script prepares for the conversion names the types of the
    comment on line 68. *)
Lemma translate_cmd_types :
  map translate_cmd layers
  = [ "gdal_translate -ot Float32 HH_0.vrt HH_1.vrt";
      "gdal_translate -ot Float32 HV_0.vrt HV_1.vrt";
      "gdal_translate -ot Float32 INC_0.vrt INC_1.vrt";
      "gdal_translate -ot Int16 DOY_0.vrt DOY_1.vrt" ].
Proof. reflexivity. Qed.

(** C2 on a run that succeeds (year 2020, one archive, every command
    succeeding): the commands executed are the listing and the four
    mosaic-building commands; no conversion command is among them. *)
Theorem build_vrt_translate_not_issued :
  build_vrt UrlModel.urlparse
    (calm_world ["/data/2020/tarfiles/N00E006_20_MOS_F02DAR.tar.gz"])
    2020 (PathSrc "/data/2020/tarfiles") []
  = ([ CheckOutput "ls /data/2020/tarfiles/*.tar.gz";
       CheckCall "gdalbuildvrt -overwrite HH_0.vrt /vsitar//data/2020/tarfiles/N00E006_20_MOS_F02DAR.tar.gz/N00E006_20_sl_HH_F02DAR.tif";
       CheckCall "gdalbuildvrt -overwrite HV_0.vrt /vsitar//data/2020/tarfiles/N00E006_20_MOS_F02DAR.tar.gz/N00E006_20_sl_HV_F02DAR.tif";
       CheckCall "gdalbuildvrt -overwrite INC_0.vrt /vsitar//data/2020/tarfiles/N00E006_20_MOS_F02DAR.tar.gz/N00E006_20_linci_F02DAR.tif";
       CheckCall "gdalbuildvrt -overwrite DOY_0.vrt /vsitar//data/2020/tarfiles/N00E006_20_MOS_F02DAR.tar.gz/N00E006_20_date_F02DAR.tif" ],
     Ok tt)
  /\ existsb is_translate_call
       (fst (build_vrt UrlModel.urlparse
               (calm_world ["/data/2020/tarfiles/N00E006_20_MOS_F02DAR.tar.gz"])
               2020 (PathSrc "/data/2020/tarfiles") [])) = false.
Proof. split; vm_compute; reflexivity. Qed.

(** C3 on a listing of two archives, neither matching the pattern: the
    second name survives filtering, no exception is raised and the four
    mosaic-building commands are executed. *)
Theorem build_vrt_no_match_still_builds :
  existsb Pattern.tarfile_pattern_match
    (map PyPath.name
       ["/data/2020/tarfiles/README.tar.gz"; "/data/2020/tarfiles/notes.tar.gz"])
  = false
  /\ build_vrt UrlModel.urlparse
       (calm_world ["/data/2020/tarfiles/README.tar.gz";
                    "/data/2020/tarfiles/notes.tar.gz"])
       2020 (PathSrc "/data/2020/tarfiles") []
     = ([ CheckOutput "ls /data/2020/tarfiles/*.tar.gz";
          CheckCall "gdalbuildvrt -overwrite HH_0.vrt /vsitar//data/2020/tarfiles/notes.tar.gz/notes.tar.gz_20_sl_HH_F02DAR.tif";
          CheckCall "gdalbuildvrt -overwrite HV_0.vrt /vsitar//data/2020/tarfiles/notes.tar.gz/notes.tar.gz_20_sl_HV_F02DAR.tif";
          CheckCall "gdalbuildvrt -overwrite INC_0.vrt /vsitar//data/2020/tarfiles/notes.tar.gz/notes.tar.gz_20_linci_F02DAR.tif";
          CheckCall "gdalbuildvrt -overwrite DOY_0.vrt /vsitar//data/2020/tarfiles/notes.tar.gz/notes.tar.gz_20_date_F02DAR.tif" ],
        Ok tt).
Proof. split; vm_compute; reflexivity. Qed.

(** With a single archive that fails the pattern the loop does remove it,
    and [build_vrt] raises before any mosaic is built. *)
Example build_vrt_single_mismatch_raises :
  build_vrt UrlModel.urlparse
    (calm_world ["/data/2020/tarfiles/README.tar.gz"])
    2020 (PathSrc "/data/2020/tarfiles") []
  = ([CheckOutput "ls /data/2020/tarfiles/*.tar.gz"],
     Raise (Exception
              "No .tar.gz files found under /data/2020/tarfiles/2020/tarfiles/.")).
Proof. vm_compute. reflexivity. Qed.

(** The listing command of a run, spelled out for the two kinds of
    source. *)
Lemma ls_cmd_derived_src (urlparse : string -> ParseResult) (args : Args) :
  ls_cmd (derived_src urlparse args)
  = let u := urlparse (src args) in
    if is_object_store (scheme u)
    then "gsutil ls " ++ (scheme u ++ "://" ++ netloc u ++ "/"
                            ++ PyStr.strip "/" (path u) ++ "/"
                            ++ PyStr.str_of_int (year args) ++ "/tarfiles")
           ++ "/*.tar.gz"
    else "ls " ++ PyPath.joinpath (src args)
                    (PyStr.str_of_int (year args) ++ "/tarfiles")
           ++ "/*.tar.gz".
Proof.
  unfold derived_src. cbv zeta.
  destruct (is_object_store _); reflexivity.
Qed.

(** A source with a key prefix is listed under source, year and
    [tarfiles]. *)
Example main_prefixed_listing :
  filter is_listing
    (fst (main UrlModel.urlparse (calm_world [])
            {| tiles := "tiles.geojson"; year := 2020;
               src := "gs://bucket/alos"; dst := "/out" |} []))
  = [CheckOutput "gsutil ls gs://bucket/alos/2020/tarfiles/*.tar.gz"].
Proof. vm_compute. reflexivity. Qed.

(** C7 on a bucket-root source: the listing looks under
    [gs://bucket//2020/tarfiles], with an empty path component, and not
    under [gs://bucket/2020/tarfiles/], the location the specification
    names. *)
Theorem main_bucket_root_listing :
  filter is_listing
    (fst (main UrlModel.urlparse (calm_world [])
            {| tiles := "tiles.geojson"; year := 2020;
               src := "gs://bucket"; dst := "/out" |} []))
  = [CheckOutput "gsutil ls gs://bucket//2020/tarfiles/*.tar.gz"]
  /\ spec_tarfiles_dir "gs://bucket" 2020 = "gs://bucket/2020/tarfiles/"
  /\ ~ In (CheckOutput
             ("gsutil ls " ++ spec_tarfiles_dir "gs://bucket" 2020
                ++ "*.tar.gz"))
          (fst (main UrlModel.urlparse (calm_world [])
                  {| tiles := "tiles.geojson"; year := 2020;
                     src := "gs://bucket"; dst := "/out" |} [])).
Proof.
  split; [vm_compute; reflexivity|].
  split; [vm_compute; reflexivity|].
  vm_compute. intros H.
  repeat (destruct H as [H|H]; [discriminate H|]). exact H.
Qed.

(** * Part IV: further properties of the script *)

(** ** The filtering loop as a single pass *)

Module LoopFacts.
Import Filter.

Lemma remove_loop_out_of_range keep rounds i l :
  List.length l <= i -> remove_loop keep rounds i l = l.
Proof.
  intros Hlen. destruct rounds as [|rounds]; [reflexivity|].
  simpl. destruct (nth_error l i) eqn:Hn; [|reflexivity].
  assert (i < List.length l) by (apply nth_error_Some; congruence). lia.
Qed.

Lemma remove_first_fresh x pre rest :
  ~ In x pre -> remove_first x (pre ++ x :: rest) = (pre ++ rest)%list.
Proof.
  induction pre as [|y pre IH]; intros Hx; simpl.
  - rewrite String.eqb_refl. reflexivity.
  - destruct (String.eqb_spec x y) as [->|Hne].
    + exfalso. apply Hx. left. reflexivity.
    + rewrite IH; [reflexivity|]. intros Hin. apply Hx. right. exact Hin.
Qed.

Lemma nth_error_middle (pre : list string) x rest :
  nth_error (pre ++ x :: rest) (List.length pre) = Some x.
Proof. induction pre as [|y pre IH]; [reflexivity | exact IH]. Qed.

(** With the visited names [pre] in front of the index and no repeated
    name, the rest of the loop is a single pass over what is left. *)
Lemma remove_loop_pass keep rounds : forall pre rest,
  NoDup (pre ++ rest) ->
  List.length rest <= rounds ->
  remove_loop keep rounds (List.length pre) (pre ++ rest)
  = (pre ++ skip_filter keep rest)%list.
Proof.
  induction rounds as [|rounds IH]; intros pre rest Hnd Hlen.
  - destruct rest; [reflexivity | simpl in Hlen; lia].
  - destruct rest as [|x rest].
    + apply remove_loop_out_of_range. rewrite app_nil_r. lia.
    + rewrite FilterFacts.remove_loop_step, nth_error_middle.
      simpl in Hlen. cbn [skip_filter].
      destruct (keep x).
      * replace (pre ++ x :: rest)%list with ((pre ++ [x]) ++ rest)%list
          by (rewrite <- app_assoc; reflexivity).
        replace (S (List.length pre)) with (List.length (pre ++ [x]))
          by (rewrite length_app; simpl; lia).
        rewrite IH.
        -- rewrite <- app_assoc. reflexivity.
        -- rewrite <- app_assoc. exact Hnd.
        -- lia.
      * rewrite remove_first_fresh.
        2:{ apply NoDup_remove_2 in Hnd. intros Hin. apply Hnd.
            apply in_or_app. left. exact Hin. }
        apply NoDup_remove_1 in Hnd.
        destruct rest as [|y rest].
        -- apply remove_loop_out_of_range. rewrite app_nil_r. lia.
        -- replace (pre ++ y :: rest)%list with ((pre ++ [y]) ++ rest)%list
             by (rewrite <- app_assoc; reflexivity).
           replace (S (List.length pre)) with (List.length (pre ++ [y]))
             by (rewrite length_app; simpl; lia).
           rewrite IH.
           ++ rewrite <- app_assoc. reflexivity.
           ++ rewrite <- app_assoc. exact Hnd.
           ++ simpl in Hlen. lia.
Qed.

(** A pass over a list in which failures are never adjacent keeps exactly
    the names that pass. *)
Lemma skip_filter_exact keep : forall l,
  (no_adjacent_failures keep l = true -> skip_filter keep l = filter keep l)
  /\ (forall x, no_adjacent_failures keep (x :: l) = true ->
                skip_filter keep (x :: l) = filter keep (x :: l)).
Proof.
  induction l as [|a l [IHl IHal]].
  - split; [reflexivity|].
    intros x _. simpl. destruct (keep x); reflexivity.
  - split; [apply IHal|].
    intros x Hx. cbn [no_adjacent_failures] in Hx.
    apply andb_true_iff in Hx. destruct Hx as [Hxa Hal].
    cbn [skip_filter filter].
    destruct (keep x).
    + f_equal. apply IHal. exact Hal.
    + simpl in Hxa. rewrite Hxa. f_equal. apply IHl.
      cbn [no_adjacent_failures] in Hal.
      apply andb_true_iff in Hal. apply Hal.
Qed.

Lemma remove_loop_all_kept keep rounds : forall i l,
  (forall x, In x l -> keep x = true) ->
  remove_loop keep rounds i l = l.
Proof.
  induction rounds as [|rounds IH]; intros i l Hall; [reflexivity|].
  simpl. destruct (nth_error l i) as [x|] eqn:Hn; [|reflexivity].
  rewrite (Hall x (nth_error_In l i Hn)). apply IH. exact Hall.
Qed.

Lemma remove_first_length_in x l :
  In x l -> S (List.length (remove_first x l)) = List.length l.
Proof.
  induction l as [|y l IH]; intros Hin; [destruct Hin|].
  simpl. destruct (String.eqb_spec x y) as [->|Hne]; [reflexivity|].
  simpl. rewrite IH; [reflexivity|].
  destruct Hin as [->|Hin]; [contradiction Hne; reflexivity | exact Hin].
Qed.

Lemma remove_first_in x y l : In y (remove_first x l) -> In y l.
Proof.
  induction l as [|z l IH]; simpl; [auto|].
  destruct (String.eqb x z); simpl; intuition.
Qed.

(** When no name passes, every round removes one name and steps over the
    next: of the [d] names from the index on, half remain. *)
Lemma remove_loop_all_rejected keep rounds : forall d i l,
  (forall x, In x l -> keep x = false) ->
  List.length l = i + d ->
  d <= rounds ->
  List.length (remove_loop keep rounds i l) = i + Nat.div2 d.
Proof.
  induction rounds as [|rounds IH]; intros d i l Hall Hlen Hd.
  - assert (d = 0) by lia. subst d. simpl. lia.
  - rewrite FilterFacts.remove_loop_step.
    destruct (nth_error l i) as [x|] eqn:Hn.
    + assert (Hin : In x l) by (eapply nth_error_In; exact Hn).
      rewrite (Hall x Hin).
      pose proof (remove_first_length_in x l Hin) as Hrm.
      assert (Hi : i < List.length l) by (apply nth_error_Some; congruence).
      destruct d as [|[|d]]; [lia| |].
      * rewrite remove_loop_out_of_range by lia. simpl. lia.
      * rewrite (IH d (S i)).
        -- simpl. lia.
        -- intros y Hy. apply Hall. eapply remove_first_in. exact Hy.
        -- lia.
        -- lia.
    + assert (List.length l <= i) by (apply nth_error_None; exact Hn).
      assert (d = 0) by lia. subst d. simpl. lia.
Qed.

End LoopFacts.

(** Distinctness of the names of a concrete listing. *)
Ltac distinct_names :=
  repeat (apply NoDup_cons;
          [ simpl; intros H;
            repeat (destruct H as [H|H]; [discriminate H|]); exact H | ]);
  apply NoDup_nil.

(** X1: on a listing without repeated names the loop of lines 41-43 is a
    single pass: a name that passes the pattern is kept, a name that fails
    is removed, and the name right after a removed one is kept without
    being tested. *)
Theorem filter_tarfiles_single_pass (l : list string) :
  NoDup l ->
  Filter.filter_tarfiles l = skip_filter Pattern.tarfile_pattern_match l.
Proof.
  intros Hnd. unfold Filter.filter_tarfiles.
  apply (LoopFacts.remove_loop_pass Pattern.tarfile_pattern_match
           (List.length l) [] l); [exact Hnd | lia].
Qed.

Lemma filter_tarfiles_single_pass_witness :
  Filter.filter_tarfiles
    ["a.tar.gz"; "b.tar.gz"; "N00E006_20_MOS_F02DAR.tar.gz"; "c.tar.gz"]
  = ["b.tar.gz"; "N00E006_20_MOS_F02DAR.tar.gz"].
Proof.
  rewrite filter_tarfiles_single_pass; [reflexivity | distinct_names].
Defined.

(** X2: on a listing without repeated names in which every name that
    fails the pattern is the last one or is followed by a name that passes,
    filtering is exact: the surviving names are the listed names that pass
    the pattern, in order. *)
Theorem filter_tarfiles_exact_when_isolated (l : list string) :
  NoDup l ->
  no_adjacent_failures Pattern.tarfile_pattern_match l = true ->
  Filter.filter_tarfiles l = filter Pattern.tarfile_pattern_match l.
Proof.
  intros Hnd Hiso.
  transitivity (skip_filter Pattern.tarfile_pattern_match l).
  - apply (LoopFacts.remove_loop_pass Pattern.tarfile_pattern_match
             (List.length l) [] l); [exact Hnd | lia].
  - apply LoopFacts.skip_filter_exact. exact Hiso.
Qed.

Lemma filter_tarfiles_exact_when_isolated_witness :
  Filter.filter_tarfiles
    ["README.tar.gz"; "N00E006_20_MOS_F02DAR.tar.gz"; "notes.tar.gz";
     "S10W060_20_MOS_F02DAR.tar.gz"; "zz.tar.gz"]
  = ["N00E006_20_MOS_F02DAR.tar.gz"; "S10W060_20_MOS_F02DAR.tar.gz"].
Proof.
  rewrite filter_tarfiles_exact_when_isolated;
    [reflexivity | distinct_names | reflexivity].
Defined.

(** X3: when every listed name passes the pattern, filtering returns the
    listing unchanged, repeated names included. *)
Theorem filter_tarfiles_all_pass (l : list string) :
  forallb Pattern.tarfile_pattern_match l = true ->
  Filter.filter_tarfiles l = l.
Proof.
  intros Hall. apply LoopFacts.remove_loop_all_kept.
  apply forallb_forall. exact Hall.
Qed.

Lemma filter_tarfiles_all_pass_witness :
  Filter.filter_tarfiles
    ["N00E006_20_MOS_F02DAR.tar.gz"; "N00E007_20_MOS_F02DAR.tar.gz";
     "N00E006_20_MOS_F02DAR.tar.gz"]
  = ["N00E006_20_MOS_F02DAR.tar.gz"; "N00E007_20_MOS_F02DAR.tar.gz";
     "N00E006_20_MOS_F02DAR.tar.gz"].
Proof. apply filter_tarfiles_all_pass. reflexivity. Defined.

(** X4: when no listed name passes the pattern, half of the names (rounded
    down) survive filtering; the list comes out empty only for a listing of
    at most one name. *)
Theorem filter_tarfiles_none_pass (l : list string) :
  existsb Pattern.tarfile_pattern_match l = false ->
  List.length (Filter.filter_tarfiles l) = Nat.div2 (List.length l).
Proof.
  intros Hnone. unfold Filter.filter_tarfiles.
  apply (LoopFacts.remove_loop_all_rejected Pattern.tarfile_pattern_match
           (List.length l) (List.length l) 0 l); [|reflexivity|lia].
  intros x Hin.
  destruct (Pattern.tarfile_pattern_match x) eqn:Hx; [|reflexivity].
  assert (Hex : existsb Pattern.tarfile_pattern_match l = true)
    by (apply existsb_exists; exists x; split; assumption).
  rewrite Hex in Hnone. discriminate Hnone.
Qed.

Lemma filter_tarfiles_none_pass_witness :
  List.length
    (Filter.filter_tarfiles
       ["a.tar.gz"; "b.tar.gz"; "c.tar.gz"; "d.tar.gz"; "e.tar.gz"]) = 2.
Proof.
  rewrite filter_tarfiles_none_pass; reflexivity.
Defined.

(** ** Runs of [build_vrt], command by command *)

Section LayerRuns.

Variable urlparse : string -> ParseResult.
Variable w : World.
Variable year : Z.
Variable src : source.
Variable names : list string.

Lemma build_layer_run lyr t :
  build_layer urlparse w year src names lyr t
  = ((t ++ [CheckCall (layer_cmd urlparse year src names lyr)])%list,
     if call_succeeds w t (layer_cmd urlparse year src names lyr) then Ok tt
     else Raise (CalledProcessError (layer_cmd urlparse year src names lyr))).
Proof.
  unfold build_layer, bind, check_call, ret, layer_cmd.
  destruct (call_succeeds w t _); reflexivity.
Qed.


Lemma for_each_layers_success : forall (ls : list layer) t,
  (forall t' lyr, In lyr ls -> call_succeeds w t' (layer_cmd urlparse year src names lyr) = true) ->
  for_each ls (build_layer urlparse w year src names) t
  = ((t ++ map CheckCall (map (layer_cmd urlparse year src names) ls))%list, Ok tt).
Proof.
  induction ls as [|lyr ls IH]; intros t Hok.
  - simpl. unfold ret. rewrite app_nil_r. reflexivity.
  - cbn [for_each]. unfold bind. rewrite build_layer_run.
    rewrite (Hok t lyr) by (left; reflexivity).
    rewrite IH by (intros t' l' Hin; apply Hok; right; exact Hin).
    rewrite <- app_assoc. reflexivity.
Qed.

End LayerRuns.

(** X5: when the listing succeeds, at least one name survives filtering
    and the host accepts the four mosaic-building commands, [build_vrt]
    returns normally after recording exactly the listing followed by the
    commands of HH, HV, INC and DOY in this order, each over the member
    paths of all surviving archives. *)
Theorem build_vrt_success (urlparse : string -> ParseResult) (w : World)
        (year : Z) (src : source) (t : trace) (lines : list string) :
  output_lines w t (ls_cmd src) = Some lines ->
  Filter.filter_tarfiles (map PyPath.name lines) <> [] ->
  (forall t' cmd,
     In cmd (mosaic_cmds urlparse year src
               (Filter.filter_tarfiles (map PyPath.name lines))) ->
     call_succeeds w t' cmd = true) ->
  build_vrt urlparse w year src t
  = ((t ++ CheckOutput (ls_cmd src)
        :: map CheckCall
             (mosaic_cmds urlparse year src
                (Filter.filter_tarfiles (map PyPath.name lines))))%list,
     Ok tt).
Proof.
  intros Hout Hsome Hok.
  unfold build_vrt, bind at 1, check_output. rewrite Hout.
  destruct (Filter.filter_tarfiles (map PyPath.name lines)) as [|n ns] eqn:Hf;
    [contradiction Hsome; reflexivity|].
  rewrite (for_each_layers_success urlparse w year src (n :: ns)).
  - rewrite <- app_assoc. reflexivity.
  - intros t' lyr Hin. apply Hok. unfold mosaic_cmds.
    apply in_map_iff. exists lyr. split; [reflexivity | exact Hin].
Qed.

Lemma build_vrt_success_witness :
  build_vrt UrlModel.urlparse
    (calm_world ["/data/2010/tarfiles/N00E006_10_MOS.tar.gz";
                 "/data/2010/tarfiles/N00E007_10_MOS.tar.gz"])
    2010 (PathSrc "/data/2010/tarfiles") []
  = ([ CheckOutput "ls /data/2010/tarfiles/*.tar.gz";
       CheckCall "gdalbuildvrt -overwrite HH_0.vrt /vsitar//data/2010/tarfiles/N00E006_10_MOS.tar.gz/N00E006_10_sl_HH_ /vsitar//data/2010/tarfiles/N00E007_10_MOS.tar.gz/N00E007_10_sl_HH_";
       CheckCall "gdalbuildvrt -overwrite HV_0.vrt /vsitar//data/2010/tarfiles/N00E006_10_MOS.tar.gz/N00E006_10_sl_HV_ /vsitar//data/2010/tarfiles/N00E007_10_MOS.tar.gz/N00E007_10_sl_HV_";
       CheckCall "gdalbuildvrt -overwrite INC_0.vrt /vsitar//data/2010/tarfiles/N00E006_10_MOS.tar.gz/N00E006_10_linci_ /vsitar//data/2010/tarfiles/N00E007_10_MOS.tar.gz/N00E007_10_linci_";
       CheckCall "gdalbuildvrt -overwrite DOY_0.vrt /vsitar//data/2010/tarfiles/N00E006_10_MOS.tar.gz/N00E006_10_date_ /vsitar//data/2010/tarfiles/N00E007_10_MOS.tar.gz/N00E007_10_date_" ],
     Ok tt).
Proof.
  rewrite (build_vrt_success UrlModel.urlparse _ 2010
             (PathSrc "/data/2010/tarfiles") []
             ["/data/2010/tarfiles/N00E006_10_MOS.tar.gz";
              "/data/2010/tarfiles/N00E007_10_MOS.tar.gz"]).
  - vm_compute. reflexivity.
  - reflexivity.
  - vm_compute. discriminate.
  - intros t' cmd _. reflexivity.
Defined.



(** The run of the witness, spelled out: HH is built, HV is refused, INC
    and DOY are not attempted. *)
Example build_vrt_hv_refused :
  build_vrt UrlModel.urlparse
    (refusing_world "gdalbuildvrt -overwrite HV"
       ["/data/2010/tarfiles/N00E006_10_MOS.tar.gz"])
    2010 (PathSrc "/data/2010/tarfiles") []
  = ([ CheckOutput "ls /data/2010/tarfiles/*.tar.gz";
       CheckCall "gdalbuildvrt -overwrite HH_0.vrt /vsitar//data/2010/tarfiles/N00E006_10_MOS.tar.gz/N00E006_10_sl_HH_";
       CheckCall "gdalbuildvrt -overwrite HV_0.vrt /vsitar//data/2010/tarfiles/N00E006_10_MOS.tar.gz/N00E006_10_sl_HV_" ],
     Raise (CalledProcessError
              "gdalbuildvrt -overwrite HV_0.vrt /vsitar//data/2010/tarfiles/N00E006_10_MOS.tar.gz/N00E006_10_sl_HV_")).
Proof. vm_compute. reflexivity. Qed.

(** X7: a listing command that fails makes [build_vrt] raise the error of
    that command, and a listing that prints nothing makes it raise the
    no-archive exception; in both cases the listing is the only thing
    recorded. *)
Theorem build_vrt_without_listing (urlparse : string -> ParseResult)
        (w : World) (year : Z) (src : source) (t : trace) :
  (output_lines w t (ls_cmd src) = None ->
   build_vrt urlparse w year src t
   = ((t ++ [CheckOutput (ls_cmd src)])%list,
      Raise (CalledProcessError (ls_cmd src))))
  /\ (output_lines w t (ls_cmd src) = Some [] ->
      build_vrt urlparse w year src t
      = ((t ++ [CheckOutput (ls_cmd src)])%list,
         Raise (Exception
                  ("No .tar.gz files found under " ++ source_text src ++ "/"
                     ++ PyStr.str_of_int year ++ "/tarfiles/.")))).
Proof.
  split; intros Hout; unfold build_vrt, bind, check_output; rewrite Hout;
    reflexivity.
Qed.

Lemma build_vrt_without_listing_witness :
  build_vrt UrlModel.urlparse unlistable_world 2020
    (StrSrc "s3://bucket/alos/2020/tarfiles") []
  = ([CheckOutput "gsutil ls s3://bucket/alos/2020/tarfiles/*.tar.gz"],
     Raise (CalledProcessError
              "gsutil ls s3://bucket/alos/2020/tarfiles/*.tar.gz"))
  /\ build_vrt UrlModel.urlparse (calm_world []) 2020
       (StrSrc "s3://bucket/alos/2020/tarfiles") []
     = ([CheckOutput "gsutil ls s3://bucket/alos/2020/tarfiles/*.tar.gz"],
        Raise (Exception
                 "No .tar.gz files found under s3://bucket/alos/2020/tarfiles/2020/tarfiles/.")).
Proof.
  split.
  - apply (build_vrt_without_listing UrlModel.urlparse unlistable_world 2020
             (StrSrc "s3://bucket/alos/2020/tarfiles") []). reflexivity.
  - apply (build_vrt_without_listing UrlModel.urlparse (calm_world []) 2020
             (StrSrc "s3://bucket/alos/2020/tarfiles") []). reflexivity.
Defined.

(** ** Runs of [main], check by check *)

Section MainRuns.

Variable urlparse : string -> ParseResult.
Variable w : World.

Lemma check_src_run args t :
  check_src urlparse w args t
  = ((t ++ [probe_of (derived_src urlparse args)])%list,
     if probe_passes w t (probe_of (derived_src urlparse args))
     then Ok (derived_src urlparse args)
     else Raise (probe_error (src args) (derived_src urlparse args))).
Proof.
  unfold check_src, derived_src. cbv zeta.
  destruct (is_object_store _); unfold bind, check_call, is_dir, ret, raise;
    cbn [probe_of probe_passes probe_error].
  - destruct (call_succeeds w t _); reflexivity.
  - destruct (is_dir_at w t _); reflexivity.
Qed.

Lemma check_dst_run args t :
  check_dst urlparse w args t
  = ((t ++ [probe_of (derived_dst urlparse args)])%list,
     if probe_passes w t (probe_of (derived_dst urlparse args))
     then Ok (derived_dst urlparse args)
     else Raise (probe_error (dst args) (derived_dst urlparse args))).
Proof.
  unfold check_dst, derived_dst. cbv zeta.
  destruct (is_object_store _); unfold bind, check_call, is_dir, ret, raise;
    cbn [probe_of probe_passes probe_error].
  - destruct (call_succeeds w t _); reflexivity.
  - destruct (is_dir_at w t _); reflexivity.
Qed.

End MainRuns.

(** X8: the source is checked first, and a failed source check ends the
    run there: the only thing recorded is the probe of the source, the
    error is the not-a-directory exception naming the [src] argument for a
    local source and the error of [gsutil ls] for an object store, and the
    destination is not examined. *)
Theorem main_src_check_fails (urlparse : string -> ParseResult) (w : World)
        (args : Args) :
  probe_passes w [] (probe_of (derived_src urlparse args)) = false ->
  main urlparse w args []
  = ([probe_of (derived_src urlparse args)],
     Raise (probe_error (src args) (derived_src urlparse args))).
Proof.
  intros Hfail. unfold main, bind at 1.
  rewrite check_src_run, Hfail. reflexivity.
Qed.

Lemma main_src_check_fails_witness :
  main UrlModel.urlparse (world_with_dirs [] [])
       {| tiles := "tiles.geojson"; year := 2020;
          src := "/data"; dst := "/out" |} []
  = ([IsDir "/data/2020/tarfiles"],
     Raise (Exception "/data is not a valid directory path")).
Proof.
  rewrite main_src_check_fails; reflexivity.
Defined.

(** X9: when the source check passes and the destination check fails, the
    run records the two probes and raises the error of the destination:
    the not-a-directory exception naming the [dst] argument for a local
    destination, the error of [gsutil ls] for an object store. *)
Theorem main_dst_check_fails (urlparse : string -> ParseResult) (w : World)
        (args : Args) :
  probe_passes w [] (probe_of (derived_src urlparse args)) = true ->
  probe_passes w [probe_of (derived_src urlparse args)]
    (probe_of (derived_dst urlparse args)) = false ->
  main urlparse w args []
  = ([probe_of (derived_src urlparse args);
      probe_of (derived_dst urlparse args)],
     Raise (probe_error (dst args) (derived_dst urlparse args))).
Proof.
  intros Hsrc Hdst. unfold main, bind at 1.
  rewrite check_src_run, Hsrc. unfold bind at 1.
  rewrite check_dst_run. cbn [app]. rewrite Hdst. reflexivity.
Qed.

Lemma main_dst_check_fails_witness :
  main UrlModel.urlparse (refusing_world "gsutil ls s3://out" [])
       {| tiles := "tiles.geojson"; year := 2020;
          src := "/data"; dst := "s3://out/alos" |} []
  = ([IsDir "/data/2020/tarfiles"; CheckCall "gsutil ls s3://out/alos/2020"],
     Raise (CalledProcessError "gsutil ls s3://out/alos/2020")).
Proof.
  rewrite main_dst_check_fails; reflexivity.
Defined.

(** X10: when both checks pass, the run is the two probes followed by
    [build_vrt] on the year and the derived source: the directory
    [<src>/<year>/tarfiles] as a path for a local source, the URL
    [<scheme>://<bucket>/<prefix>/<year>/tarfiles] as a string for an object
    store.  The destination is not passed on. *)
Theorem main_checks_pass (urlparse : string -> ParseResult) (w : World)
        (args : Args) :
  probe_passes w [] (probe_of (derived_src urlparse args)) = true ->
  probe_passes w [probe_of (derived_src urlparse args)]
    (probe_of (derived_dst urlparse args)) = true ->
  main urlparse w args []
  = build_vrt urlparse w (year args) (derived_src urlparse args)
      [probe_of (derived_src urlparse args);
       probe_of (derived_dst urlparse args)].
Proof.
  intros Hsrc Hdst. unfold main, bind at 1.
  rewrite check_src_run, Hsrc. unfold bind at 1.
  rewrite check_dst_run. cbn [app]. rewrite Hdst. reflexivity.
Qed.

Lemma main_checks_pass_witness :
  main UrlModel.urlparse (calm_world [])
       {| tiles := "tiles.geojson"; year := 2020;
          src := "s3://bucket/alos"; dst := "/out" |} []
  = build_vrt UrlModel.urlparse (calm_world []) 2020
      (StrSrc "s3://bucket/alos/2020/tarfiles")
      [CheckCall "gsutil ls s3://bucket/alos/2020/tarfiles"; IsDir "/out/2020"].
Proof.
  rewrite main_checks_pass; reflexivity.
Defined.

(** X11: a run of [main] performs nothing but directory tests, [gsutil ls]
    calls, [ls] or [gsutil ls] listings and [gdalbuildvrt -overwrite]
    calls: on every host and for all arguments, each recorded event is one
    of these. *)
Theorem main_only_expected_commands (urlparse : string -> ParseResult)
        (w : World) (args : Args) :
  appends (fun ev => is_expected ev = true) (main urlparse w args).
Proof.
  eapply appends_weaken; [|apply main_appends].
  intros ev [Hp|Hb].
  - destruct ev as [p|cmd|cmd|p]; cbn [is_probe] in Hp; try discriminate Hp.
    + reflexivity.
    + cbn [is_expected]. rewrite Hp. reflexivity.
  - destruct Hb as [|lyr names].
    + destruct (derived_src urlparse args); reflexivity.
    + reflexivity.
Qed.

(** ** Tiles, years and layers in member names *)

Module NameFacts.
Import Pattern.

Lemma append_inv_head (a x y : string) : a ++ x = a ++ y -> x = y.
Proof.
  induction a as [|c a IH]; simpl; intros H; [exact H|].
  inversion H. apply IH. assumption.
Qed.

Lemma digit_excludes_underscore : excludes "_" is_digit.
Proof.
  intros c H. destruct c as [[] [] [] [] [] [] [] []]; try reflexivity;
    vm_compute in H; discriminate H.
Qed.

Lemma hemisphere_excludes_underscore members :
  members = "NS" \/ members = "EW" -> excludes "_" (in_class members).
Proof.
  intros [->| ->] c H; destruct c as [[] [] [] [] [] [] [] []];
    try reflexivity; vm_compute in H; discriminate H.
Qed.

(** When the tests before the demanded separator all exclude it, the text
    before the first separator is exactly as long as these tests. *)
Lemma split_head_exact sep post : forall pre s,
  Forall (excludes sep) pre ->
  match_prefix (pre ++ lit sep :: post) s = true ->
  PyStr.split_head sep s = substring 0 (List.length pre) s.
Proof.
  induction pre as [|p pre IH]; intros s Hpre Hs;
    (destruct s as [|a s]; [discriminate Hs|]);
    simpl in Hs; apply andb_true_iff in Hs; destruct Hs as [Ha Hs];
    rewrite StrFacts.split_head_cons.
  - unfold lit in Ha. rewrite Ha. reflexivity.
  - inversion Hpre as [|? ? Hp Hpre']; subst.
    rewrite (Hp a Ha). simpl. rewrite (IH s Hpre' Hs). reflexivity.
Qed.

(** In any case it is no longer than these tests. *)
Lemma split_head_bound sep post : forall pre s,
  match_prefix (pre ++ lit sep :: post) s = true ->
  String.length (PyStr.split_head sep s) <= List.length pre.
Proof.
  induction pre as [|p pre IH]; intros s Hs;
    (destruct s as [|a s]; [discriminate Hs|]);
    simpl in Hs; apply andb_true_iff in Hs; destruct Hs as [Ha Hs];
    rewrite StrFacts.split_head_cons.
  - unfold lit in Ha. rewrite Ha. simpl. lia.
  - destruct (Ascii.eqb a sep); simpl; [lia|].
    specialize (IH s Hs). lia.
Qed.

(** Checking a test on every integer of a range by running through it. *)
Lemma Z_range_check (P : Z -> bool) (lo n : Z) :
  forallb (fun k => P (lo + Z.of_nat k)%Z) (seq 0 (Z.to_nat n)) = true ->
  forall z, (lo <= z < lo + n)%Z -> P z = true.
Proof.
  intros Hall z Hz.
  rewrite forallb_forall in Hall.
  specialize (Hall (Z.to_nat (z - lo))).
  rewrite Z2Nat.id in Hall by lia.
  replace (lo + (z - lo))%Z with z in Hall by lia.
  apply Hall. apply in_seq. lia.
Qed.

End NameFacts.

(** X12: the member paths of two different layers of the same archive are
    different: the four mosaics never refer to the same member. *)
Theorem tif_layers_differ (urlparse : string -> ParseResult) (year : Z)
        (src : source) (tarfile : string) (lyr1 lyr2 : layer) :
  lyr1 <> lyr2 ->
  tif urlparse year src lyr1 tarfile <> tif urlparse year src lyr2 tarfile.
Proof.
  intros Hne Heq. apply Hne.
  rewrite !tif_tail in Heq. apply NameFacts.append_inv_head in Heq.
  unfold postfix, suffix in Heq.
  destruct (year <? 2014)%Z; destruct (year <? 2019)%Z;
    destruct lyr1; destruct lyr2; try reflexivity; discriminate Heq.
Qed.

Lemma tif_layers_differ_witness :
  tif UrlModel.urlparse 2020 (PathSrc "/data/2020/tarfiles") HH
      "N00E006_20_MOS_F02DAR.tar.gz"
  <> tif UrlModel.urlparse 2020 (PathSrc "/data/2020/tarfiles") HV
         "N00E006_20_MOS_F02DAR.tar.gz".
Proof.
  apply tif_layers_differ. discriminate.
Defined.

(** X13: the tile that names the members of an archive is the text of the
    archive name before its first underscore.  For a name that passes the
    pattern it has at most seven characters, and for a name of the form
    hemisphere letter, two digits, hemisphere letter, three digits,
    underscore, two digits, underscore, MOS it is exactly the first seven
    characters, the tile coordinates. *)
Theorem tile_of_matching_name (name : string) :
  (Pattern.tarfile_pattern_match name = true ->
   String.length (PyStr.split_head "_" name) <= 7)
  /\ (Pattern.spec_pattern_match name = true ->
      PyStr.split_head "_" name = substring 0 7 name).
Proof.
  split; intros Hm.
  - apply (NameFacts.split_head_bound "_"
             [Pattern.is_word; Pattern.is_word; Pattern.lit "_";
              Pattern.lit "M"; Pattern.lit "O"; Pattern.lit "S"]
             [Pattern.in_class "N|S"; Pattern.is_word; Pattern.is_word;
              Pattern.in_class "E|W"; Pattern.is_word; Pattern.is_word;
              Pattern.is_word]).
    exact Hm.
  - apply (NameFacts.split_head_exact "_"
             [Pattern.is_digit; Pattern.is_digit; Pattern.lit "_";
              Pattern.lit "M"; Pattern.lit "O"; Pattern.lit "S"]
             [Pattern.in_class "NS"; Pattern.is_digit; Pattern.is_digit;
              Pattern.in_class "EW"; Pattern.is_digit; Pattern.is_digit;
              Pattern.is_digit]);
      [|exact Hm].
    repeat first
      [ apply Forall_nil
      | apply Forall_cons;
        [ first [ apply NameFacts.digit_excludes_underscore
                | apply NameFacts.hemisphere_excludes_underscore; auto ] | ] ].
Qed.

Lemma tile_of_matching_name_witness :
  PyStr.split_head "_" "S10W060_19_MOS_F02DAR.tar.gz" = "S10W060"
  /\ String.length (PyStr.split_head "_" "N_0E006_20_MOS.tar.gz") <= 7.
Proof.
  split.
  - destruct (tile_of_matching_name "S10W060_19_MOS_F02DAR.tar.gz")
      as [_ Hexact].
    rewrite Hexact; reflexivity.
  - apply (tile_of_matching_name "N_0E006_20_MOS.tar.gz"). reflexivity.
Defined.

(** X14: the year field of a member name is the decimal text of the year
    without its first two characters.  For a four-digit year it is the two
    digits of the year within its century; for a year from -9 to 99 it is
    empty. *)
Theorem yy_of_year (year : Z) :
  ((1000 <= year <= 9999)%Z -> yy year = two_digits (year mod 100))
  /\ ((-9 <= year <= 99)%Z -> yy year = "").
Proof.
  split; intros Hy.
  - apply String.eqb_eq.
    apply (NameFacts.Z_range_check
             (fun y => String.eqb (yy y) (two_digits (y mod 100)))
             1000 9000); [vm_compute; reflexivity | lia].
  - apply String.eqb_eq.
    apply (NameFacts.Z_range_check (fun y => String.eqb (yy y) "")
             (-9) 109); [vm_compute; reflexivity | lia].
Qed.

Lemma yy_of_year_witness : yy 2007 = "07" /\ yy 14 = "".
Proof.
  split.
  - destruct (yy_of_year 2007) as [H _]. rewrite H; [reflexivity | lia].
  - destruct (yy_of_year 14) as [_ H]. rewrite H; [reflexivity | lia].
Defined.
